(** * Scientific-Data-Analysis-Tool: [project1.py]

    A shallow embedding of the two functions of [src/project1.py],
    [create_dummy_data] (the Generator) and [process_and_analyze] (the
    Analyzer), together with the pieces of NumPy, pandas and Matplotlib they
    call, and the properties of the specification proved over them.

    Numbers are IEEE binary64 values ([PrimFloat.float]), as NumPy's
    [float64] arrays hold them; a missing value is NaN, as in pandas.  The
    program's effects (the file system, the console, NumPy's global random
    state, Matplotlib's current figure and the objects pandas allocates) are
    the fields of one [world] record threaded through an exception-and-state
    monad. *)

From Stdlib Require Import Floats ZArith Ascii DecimalString.
From stdpp Require Import gmap strings list.

Set Warnings "-inexact-float".

(** ** Floating-point scalars and arrays *)

Definition float_of_nat (n : nat) : float :=
  PrimFloat.of_uint63 (Uint63.of_Z (Z.of_nat n)).

(** [np.isnan] on a scalar. *)
Definition isnan (x : float) : bool := PrimFloat.is_nan x.

(** A float that is neither a NaN nor an infinity. *)
Definition finite (x : float) : bool :=
  match Prim2SF x with
  | S754_zero _ | S754_finite _ _ _ => true
  | _ => false
  end.

(** A finite float other than the zeros. *)
Definition finite_nonzero (x : float) : bool :=
  match Prim2SF x with
  | S754_finite _ _ _ => true
  | _ => false
  end.

(** A one-dimensional [float64] array. *)
Abbreviation ndarray := (list float).

(** [np.arange(0, n)] as floats. *)
Definition arange (n : nat) : ndarray := map float_of_nat (seq 0 n).

(** [np.linspace(start, stop, num)] with the default [endpoint=True], after
    [numpy/_core/function_base.py]: [num] samples [arange(num) * step + start]
    with [step = (stop - start) / (num - 1)], the last one overwritten by
    [stop]. *)
Definition linspace (start stop : float) (num : nat) : ndarray :=
  let div := num - 1 in
  let delta := (stop - start)%float in
  let y := arange num in
  let y :=
    if bool_decide (0 < div) then
      let step := (delta / float_of_nat div)%float in
      if (step =? 0)%float
      then map (fun v => (v / float_of_nat div * delta)%float) y
      else map (fun v => (v * step)%float) y
    else map (fun v => (v * delta)%float) y in
  let y := map (fun v => (v + start)%float) y in
  if bool_decide (1 < num) then <[num - 1 := stop]> y else y.

(** ** Data frames and CSV files *)

(** A pandas [DataFrame]: its columns in order, each a name and an array of
    numbers.  The frame built from the dict [data] of the Generator and the
    frame [read_csv] returns have this form.  The dtype of the columns is not
    part of the frame: see [read_dtype]. *)
Definition DataFrame := list (string * ndarray).

(** The dtype of the columns of a frame that [pd.read_csv] returned: [object]
    when the file gave them no value (no data line), [float64] otherwise.
    [dropna] keeps the dtype, so the arrays the Analyzer takes from the
    cleaned frame have the dtype of the loaded one. *)
Inductive dtype := float64 | object.

(** Number of rows: the length of the index, which every column shares. *)
Definition nrows (df : DataFrame) : nat :=
  match df with
  | [] => 0
  | (_, c) :: _ => length c
  end.

Definition read_dtype (loaded : DataFrame) : dtype :=
  if bool_decide (nrows loaded = 0) then object else float64.

(** [df.shape]. *)
Definition shape (df : DataFrame) : nat * nat := (nrows df, length df).

(** Every column is as long as the index. *)
Definition rect (df : DataFrame) : bool :=
  forallb (fun nc => bool_decide (length nc.2 = nrows df)) df.

(** [df[name]]: the first column of that name, if any. *)
Fixpoint column (df : DataFrame) (name : string) : option ndarray :=
  match df with
  | [] => None
  | (n, c) :: rest => if bool_decide (n = name) then Some c else column rest name
  end.

(** [df.isnull().values.any()]. *)
Definition isnull_any (df : DataFrame) : bool :=
  existsb (fun nc => existsb isnan nc.2) df.

(** Row [i] has no missing field. *)
Definition row_complete (df : DataFrame) (i : nat) : bool :=
  forallb (fun nc => negb (isnan (nth i nc.2 nan))) df.

(** The boolean mask [dropna] indexes with: one flag per row. *)
Definition dropna_mask (df : DataFrame) : list bool :=
  map (row_complete df) (seq 0 (nrows df)).

(** Boolean indexing [a[mask]]: the entries whose flag is set, in order. *)
Fixpoint keep {A} (mask : list bool) (a : list A) : list A :=
  match mask, a with
  | b :: mask', x :: a' => if b then x :: keep mask' a' else keep mask' a'
  | _, _ => []
  end.

(** [df.dropna()] with its defaults ([axis=0], [how='any']): a frame with the
    same columns holding the rows without a missing field. *)
Definition dropna (df : DataFrame) : DataFrame :=
  map (fun nc => (nc.1, keep (dropna_mask df) nc.2)) df.

(** Number of rows with at least one missing field. *)
Definition incomplete_rows (df : DataFrame) : nat :=
  length (filter (fun i => row_complete df i = false) (seq 0 (nrows df))).

(** A CSV field of a numeric column: empty, or the decimal text of a number.
    The text itself is abstracted to the float it denotes: pandas writes the
    shortest decimal that reads back as the same binary64 value. *)
Definition field := option float.

(** A CSV file: the header line and the data lines, each split at commas. *)
Record csv := Csv { header : list string; rows : list (list field) }.

(** How [to_csv] writes a value ([na_rep=''], the default) and how [read_csv]
    reads a field. *)
Definition to_field (x : float) : field := if isnan x then None else Some x.
Definition of_field (f : field) : float := default nan f.

(** [df.to_csv(..., index=False)]: header of column names, then one line per
    row. *)
Definition csv_of_frame (df : DataFrame) : csv :=
  Csv (map fst df)
      (map (fun i => map (fun nc => to_field (nth i nc.2 nan)) df)
           (seq 0 (nrows df))).

(** The frame of a regular file: column [j] is named by header field [j] and
    holds field [j] of every line. *)
Definition frame_of_csv (f : csv) : DataFrame :=
  imap (fun j name => (name, map (fun r => of_field (nth j r None)) (rows f)))
       (header f).

(** Files whose reading this development fixes: distinct, non-empty column
    names, at least one data line, and as many fields on every line as the
    header has names. *)
Definition regular (f : csv) : bool :=
  bool_decide (NoDup (header f))
  && forallb (fun n => negb (bool_decide (n = ""))) (header f)
  && negb (bool_decide (rows f = []))
  && forallb (fun r => bool_decide (length r = length (header f))) (rows f).

(** ** Exceptions, Python objects and plotting calls *)

(** The exceptions the two functions can meet. *)
Inductive exn :=
  | NameError (name : string)
  | KeyError (key : string)
  | IndexError (index size : nat)
  | ValueError (msg : string)
  | TypeError (msg : string)
  | FileNotFoundError (path : string)
  | OSError (msg : string)
  | ZeroDivisionError
  | ParserError.

(** What a module-level name of [project1.py] is bound to. *)
Inductive pyobj :=
  | PyModule (name : string)
  | PyFunction (name : string)
  | PyStr (s : string).

(** The global namespace of [project1.py] run as a script: the four imports,
    the two functions and [data_file] of the [__main__] block. *)
Definition module_globals : list (string * pyobj) :=
  [ ("pd", PyModule "pandas");
    ("np", PyModule "numpy");
    ("plt", PyModule "matplotlib.pyplot");
    ("os", PyModule "os");
    ("create_dummy_data", PyFunction "create_dummy_data");
    ("process_and_analyze", PyFunction "process_and_analyze");
    ("data_file", PyStr "experiment_data.csv") ].

(** The names [process_and_analyze] binds, hence its local variables. *)
Definition process_and_analyze_locals : list string :=
  [ "filename"; "df"; "current"; "voltage"; "mean_v"; "mean_i"; "var_v";
    "std_v"; "correlation"; "m"; "b" ].

(** The [matplotlib.pyplot] calls of the Analyzer, with their arguments. *)
Inductive plt_call :=
  | Figure (width height : nat)
  | Scatter (x y : ndarray) (color label : string) (alpha : float)
  | Plot (x y : ndarray) (color linestyle label : string)
  | Title (s : string)
  | Xlabel (s : string)
  | Ylabel (s : string)
  | Legend
  | Grid (on : bool) (linestyle : string) (alpha : float)
  | TightLayout
  | Show.

(** ** The world and the monad of Python statements *)

(** Result of running a statement: a value, or a raised exception. *)
Inductive outcome (A : Type) :=
  | Ok (a : A)
  | Raise (e : exn).
Arguments Ok {A} a.
Arguments Raise {A} e.

(** The library code the script calls whose results this development leaves
    open: it is NumPy's, pandas' or the interpreter's, not the script's. *)
Record library := Library {
  (** NumPy's global [RandomState]: its state, seeding, and one standard
      normal draw (the Mersenne Twister and the polar method are NumPy's). *)
  rng_state : Type;
  seed_state : Z -> rng_state;
  gauss : rng_state -> float * rng_state;
  (** [np.mean], [np.var], [np.std] of a [float64] array. *)
  np_mean : ndarray -> float;
  np_var : ndarray -> float;
  np_std : ndarray -> float;
  (** Entry [0, 1] of [np.corrcoef(x, y)] and the least-squares line of
      [np.polyfit(x, y, 1)], on arguments that pass their checks. *)
  corrcoef01 : ndarray -> ndarray -> float;
  lstsq1 : ndarray -> ndarray -> float * float;
  (** The format specifications [:.2f] and [:.4f], and [format(obj, '')]. *)
  fmt2 : float -> string;
  fmt4 : float -> string;
  py_format : pyobj -> string;
  (** What [pd.read_csv] does with a file that is not [regular]. *)
  read_irregular : csv -> exn + DataFrame;
  (** What opening a path for writing raises, if anything, in a file system
      holding the given files: the operating system's answer ([OSError] for a
      directory that does not exist, [FileNotFoundError] for the empty path,
      ...). *)
  write_error : gmap string csv -> string -> option exn
}.

Section Program.

Context (L : library).

Record world := World {
  files : gmap string csv;        (* the files, by resolved path *)
  stdout : list string;           (* one entry per [print] call *)
  rng : rng_state L;              (* [np.random]'s global state *)
  figure : list plt_call;         (* pyplot calls so far *)
  heap : list DataFrame           (* data frame objects, by reference *)
}.

Definition py (A : Type) : Type := world -> outcome A * world.

Definition ret {A} (a : A) : py A := fun w => (Ok a, w).
Definition raise {A} (e : exn) : py A := fun w => (Raise e, w).
Definition bind {A B} (m : py A) (k : A -> py B) : py B :=
  fun w =>
    match m w with
    | (Ok a, w') => k a w'
    | (Raise e, w') => (Raise e, w')
    end.

Notation "x <- m ;; k" := (bind m (fun x => k))
  (at level 100, m at next level, right associativity, only parsing).
Notation "m ;;; k" := (bind m (fun _ => k))
  (at level 100, right associativity, only parsing).

(** *** Built-ins and [os] *)

(** [print(s)]. *)
Definition print (s : string) : py unit := fun w =>
  (Ok tt, World (files w) (stdout w ++ [s]) (rng w) (figure w) (heap w)).

(** [os.path.exists(filename)]. *)
Definition os_path_exists (filename : string) : py bool := fun w =>
  (Ok (bool_decide (is_Some (files w !! filename))), w).

(** Reading a name that is not local to the running function: the module's
    globals are searched (the built-ins hold no name the script reads this
    way), and a miss raises [NameError]. *)
Definition load_global (name : string) : py pyobj :=
  match list_find (fun kv => kv.1 = name) module_globals with
  | Some (_, (_, o)) => ret o
  | None => raise (NameError name)
  end.

(** *** [numpy] *)

(** [np.random.seed(s)]. *)
Definition np_random_seed (s : Z) : py unit := fun w =>
  (Ok tt, World (files w) (stdout w) (seed_state L s) (figure w) (heap w)).

(** [size] draws of [loc + scale * gauss], in order. *)
Fixpoint normal (loc scale : float) (size : nat) (st : rng_state L)
    : ndarray * rng_state L :=
  match size with
  | 0 => ([], st)
  | S n =>
      let (g, st1) := gauss L st in
      let (rest, st2) := normal loc scale n st1 in
      ((loc + scale * g)%float :: rest, st2)
  end.

(** [np.random.normal(loc, scale, size)]. *)
Definition np_random_normal (loc scale : float) (size : nat) : py ndarray :=
  fun w =>
    let (a, st) := normal loc scale size (rng w) in
    (Ok a, World (files w) (stdout w) st (figure w) (heap w)).

(** [a + b] on one-dimensional arrays: entry by entry when the lengths
    agree, an operand of length 1 being broadcast otherwise. *)
Definition np_add (a b : ndarray) : py ndarray :=
  if bool_decide (length a = length b)
  then ret (zip_with PrimFloat.add a b)
  else match a, b with
       | [x], _ => ret (map (fun y => (x + y)%float) b)
       | _, [y] => ret (map (fun x => (x + y)%float) a)
       | _, _ => raise (ValueError "operands could not be broadcast together")
       end.

(** [np.mean(a)], [np.var(a)], [np.std(a)] for an array of the given dtype:
    on an [object] array without entries the sum 0 is divided by the count 0,
    which raises; on a [float64] array the result is a number (NaN, with a
    warning, when there is no entry). *)
Definition np_reduce (f : ndarray -> float) (t : dtype) (a : ndarray)
    : py float :=
  match t, a with
  | object, [] => raise ZeroDivisionError
  | _, _ => ret (f a)
  end.

(** [a[i] = x]. *)
Definition setitem (a : ndarray) (i : nat) (x : float) : py ndarray :=
  if bool_decide (i < length a)
  then ret (<[i := x]> a)
  else raise (IndexError i (length a)).

(** [np.corrcoef(x, y)[0, 1]]. *)
Definition np_corrcoef (x y : ndarray) : py float :=
  if bool_decide (length x = length y)
  then ret (corrcoef01 L x y)
  else raise (ValueError "all the input array dimensions must match").

(** [np.polyfit(x, y, 1)]. *)
Definition np_polyfit (x y : ndarray) : py (float * float) :=
  if bool_decide (length x = 0)
  then raise (TypeError "expected non-empty vector for x")
  else if bool_decide (length x = length y)
  then ret (lstsq1 L x y)
  else raise (TypeError "expected x and y to have same length").

(** *** [pandas] *)

(** A new data frame object; the result is its reference. *)
Definition alloc (df : DataFrame) : py nat := fun w =>
  (Ok (length (heap w)),
   World (files w) (stdout w) (rng w) (figure w) (heap w ++ [df])).

(** The frame a reference denotes (references come from [alloc], so they
    are live; the default is never met). *)
Definition deref (r : nat) : py DataFrame := fun w =>
  (Ok (default [] (heap w !! r)), w).

(** [pd.DataFrame(data)] for a dict of arrays. *)
Definition pd_DataFrame (data : list (string * ndarray)) : py nat :=
  if rect data
  then alloc data
  else raise (ValueError "All arrays must be of the same length").

(** [df.to_csv(filename, index=False)]: the file is opened for writing,
    which the operating system may refuse, and then holds the frame. *)
Definition to_csv (r : nat) (filename : string) : py unit :=
  df <- deref r ;;
  fun w =>
    match write_error L (files w) filename with
    | Some e => (Raise e, w)
    | None =>
        (Ok tt, World (<[filename := csv_of_frame df]> (files w)) (stdout w)
                      (rng w) (figure w) (heap w))
    end.

(** [pd.read_csv(filename)] of an existing file. *)
Definition parse_csv (f : csv) : exn + DataFrame :=
  if regular f then inr (frame_of_csv f) else read_irregular L f.

Definition read_csv (filename : string) : py nat := fun w =>
  match files w !! filename with
  | Some f =>
      match parse_csv f with
      | inr df => alloc df w
      | inl e => (Raise e, w)
      end
  | None => (Raise (FileNotFoundError filename), w)
  end.

(** [df.dropna(inplace=...)]: a new frame, or the same object updated. *)
Definition df_dropna (r : nat) (inplace : bool) : py nat :=
  df <- deref r ;;
  if inplace
  then fun w =>
    (Ok r, World (files w) (stdout w) (rng w) (figure w)
                 (<[r := dropna df]> (heap w)))
  else alloc (dropna df).

(** [df[name].values]. *)
Definition df_values (r : nat) (name : string) : py ndarray :=
  df <- deref r ;;
  match column df name with
  | Some c => ret c
  | None => raise (KeyError name)
  end.

(** *** [matplotlib.pyplot] *)

Definition plt (c : plt_call) : py unit := fun w =>
  (Ok tt, World (files w) (stdout w) (rng w) (figure w ++ [c]) (heap w)).

(** *** The script *)

(** [str] of a tuple of two integers, as [print] shows [df.shape]. *)
Definition show_nat (n : nat) : string := NilZero.string_of_uint (Nat.to_uint n).
Definition show_shape (s : nat * nat) : string :=
  "(" +:+ show_nat s.1 +:+ ", " +:+ show_nat s.2 +:+ ")".

Definition newline : string := String "010"%char "".

(** [create_dummy_data(filename)], lines 6-28. *)
Definition create_dummy_data (filename : string) : py string :=
  np_random_seed 42 ;;;
  let current := linspace 0 10 50 in
  let resistance := 5%float in
  noise <- np_random_normal 0 2.5 50 ;;
  voltage <- np_add (map (fun c => (c * resistance)%float) current) noise ;;
  voltage <- setitem voltage 5 nan ;;
  voltage <- setitem voltage 15 nan ;;
  let data := [("Current_A", current); ("Voltage_V", voltage)] in
  df <- pd_DataFrame data ;;
  to_csv df filename ;;;
  print ("Created dummy dataset: " +:+ filename) ;;;
  ret filename.

(** [process_and_analyze(filename)], lines 30-95. *)
Definition process_and_analyze (filename : string) : py unit :=
  found <- os_path_exists filename ;;
  if negb found then
    print ("Error: File " +:+ filename +:+ " not found.")
  else
    print ("Loading data from " +:+ filename +:+ "...") ;;;
    df <- read_csv filename ;;
    raw <- deref df ;;
    print ("Raw data shape: " +:+ show_shape (shape raw)) ;;;
    df <- (if isnull_any raw then
             print "Missing values detected. Dropping incomplete rows..." ;;;
             df_dropna df false
           else ret df) ;;
    cleaned <- deref df ;;
    print ("Cleaned data shape: " +:+ show_shape (shape cleaned)) ;;;
    current <- df_values df "Current_A" ;;
    voltage <- df_values df "Voltage_V" ;;
    let dt := read_dtype raw in
    print (newline +:+ "--- Statistical Analysis ---") ;;;
    mean_v <- np_reduce (np_mean L) dt voltage ;;
    mean_i <- np_reduce (np_mean L) dt current ;;
    var_v <- np_reduce (np_var L) dt voltage ;;
    std_v <- np_reduce (np_std L) dt voltage ;;
    print ("Voltage Mean: " +:+ fmt2 L mean_v +:+ " V") ;;;
    print ("Voltage Variance: " +:+ fmt2 L var_v +:+ " V^2") ;;;
    print ("Voltage Std Dev: " +:+ fmt2 L std_v +:+ " V") ;;;
    correlation <- np_corrcoef current voltage ;;
    print ("Correlation (Current vs Voltage): " +:+ fmt4 L correlation) ;;;
    plt (Figure 10 6) ;;;
    plt (Scatter current voltage "blue" "Experimental Data" 0.7) ;;;
    mb <- np_polyfit current voltage ;;
    let '(m, b) := mb in
    let fit := map (fun c => (m * c + b)%float) current in
    resistance <- load_global "resistance" ;;
    plt (Plot current fit "red" "--"
           ("Linear Fit (R=" +:+ py_format L resistance +:+ "Ω approx)")) ;;;
    plt (Title "V-I Characteristics (Ohm's Law Experiment)") ;;;
    plt (Xlabel "Current (A)") ;;;
    plt (Ylabel "Voltage (V)") ;;;
    plt Legend ;;;
    plt (Grid true ":" 0.6) ;;;
    plt TightLayout ;;;
    plt Show.

(** The [__main__] block, lines 97-103. *)
Definition main : py unit :=
  let data_file := "experiment_data.csv" in
  found <- os_path_exists data_file ;;
  (if negb found then create_dummy_data data_file else ret data_file) ;;;
  process_and_analyze data_file.

End Program.

Arguments World {L} _ _ _ _ _.
Arguments files {L} _.
Arguments stdout {L} _.
Arguments rng {L} _.
Arguments figure {L} _.
Arguments heap {L} _.

(** The Analyzer's cleaning step (lines 45-47) as a function of the loaded
    frame: [dropna] when some value is missing, the frame itself otherwise. *)
Definition clean (df : DataFrame) : DataFrame :=
  if isnull_any df then dropna df else df.

(** What the Generator computes (lines 10-25), as functions of the library:
    the currents, the noise drawn right after seeding with 42, the voltages
    with entries 5 and 15 overwritten, and the frame built from them. *)
Definition current : ndarray := linspace 0 10 50.

Definition noise (L : library) : ndarray :=
  (normal L 0 2.5 50 (seed_state L 42)).1.

Definition voltage (L : library) : ndarray :=
  <[15 := nan]>
    (<[5 := nan]>
       (zip_with PrimFloat.add (map (fun c => (c * 5)%float) current) (noise L))).

Definition dummy_frame (L : library) : DataFrame :=
  [("Current_A", current); ("Voltage_V", voltage L)].

(** The mask the cleaning step applies to every column: [dropna]'s when a
    value is missing, no selection otherwise. *)
Definition clean_mask (df : DataFrame) : list bool :=
  if isnull_any df then dropna_mask df else replicate (nrows df) true.

(** The [Voltage_V] column in the specification's words, which leave the two
    emptied entries out: every field is the number [current * 5 + noise]. *)
Definition voltage_claimed (L : library) : list field :=
  map Some (zip_with (λ c n, (c * 5 + n)%float) current (noise L)).

(** Column [name] of a CSV file: the field each line has under that name of
    the header. *)
Definition csv_column (f : csv) (name : string) : option (list field) :=
  match list_find (λ n, n = name) (header f) with
  | Some (j, _) => Some (map (λ r, nth j r None) (rows f))
  | None => None
  end.

(** The library's normal draws are numbers: no draw is a NaN. *)
Definition draws_numbers (L : library) : Prop :=
  ∀ st, isnan (gauss L st).1 = false.

(** The Generator's contract in those words: the file at [filename] has the
    header and 50 lines, its [Current_A] fields are the currents and its
    [Voltage_V] fields are [voltage_claimed]. *)
Definition generator_claim (L : library) (w : world L) (filename : string)
    : Prop :=
  ∃ file,
    files (create_dummy_data L filename w).2 !! filename = Some file
    ∧ header file = ["Current_A"; "Voltage_V"]
    ∧ length (rows file) = 50
    ∧ csv_column file "Current_A" = Some (map Some current)
    ∧ csv_column file "Voltage_V" = Some (voltage_claimed L).

(** ** A reference instance of the library

    A small deterministic instance on which the script can be run: a counter
    for the random state, textbook statistics and exact decimal
    formatting.  It stands in for NumPy where a statement is evaluated on a
    concrete world; no theorem about the script depends on it. *)
Module Demo.

(** A draw in [-1.5, 1.5] that cycles with the counter. *)
Definition gauss (n : nat) : float * nat :=
  ((float_of_nat (n * 5 mod 7) - 3) / 2, S n)%float.

Definition sum (a : ndarray) : float := foldl PrimFloat.add 0%float a.
Definition mean (a : ndarray) : float := (sum a / float_of_nat (length a))%float.
Definition var (a : ndarray) : float :=
  let mu := mean a in mean (map (fun x => ((x - mu) * (x - mu))%float) a).
Definition std (a : ndarray) : float := PrimFloat.sqrt (var a).
Definition cov (x y : ndarray) : float :=
  let mx := mean x in
  let my := mean y in
  mean (zip_with (fun a b => ((a - mx) * (b - my))%float) x y).
Definition corrcoef01 (x y : ndarray) : float :=
  (cov x y / (std x * std y))%float.
Definition lstsq1 (x y : ndarray) : float * float :=
  let m := (cov x y / var x)%float in
  (m, (mean y - m * mean x)%float).

(** The integer nearest to [x * 10^d] (ties to even) for a finite [x],
    computed exactly from the binary expansion. *)
Definition scaled (d : nat) (x : float) : option (bool * Z) :=
  match Prim2SF x with
  | S754_zero s => Some (s, 0%Z)
  | S754_finite s m e =>
      let num := (Z.pos m * 10 ^ Z.of_nat d * 2 ^ Z.max e 0)%Z in
      let den := (2 ^ Z.max (- e) 0)%Z in
      let q := (num / den)%Z in
      let r := (2 * (num mod den))%Z in
      Some (s, if (den <? r)%Z || ((den =? r)%Z && Z.odd q)
               then (q + 1)%Z else q)
  | _ => None
  end.

Definition pad (d : nat) (s : string) : string :=
  String.concat "" (replicate (d - String.length s) "0") +:+ s.

(** Fixed-point formatting with [d] decimals. *)
Definition fixed (d : nat) (x : float) : string :=
  match scaled d x with
  | Some (s, n) =>
      let digits := pad (S d) (NilZero.string_of_uint (N.to_uint (Z.to_N n))) in
      let k := String.length digits - d in
      (if s then "-" else "") +:+ String.substring 0 k digits
        +:+ "." +:+ String.substring k d digits
  | None => if isnan x then "nan" else if (x <? 0)%float then "-inf" else "inf"
  end.

Definition py_format (o : pyobj) : string :=
  match o with
  | PyModule n => "<module '" +:+ n +:+ "'>"
  | PyFunction n => "<function " +:+ n +:+ ">"
  | PyStr s => s
  end.

(** A flat directory: a path with a slash names a directory that does not
    exist, and the empty path names nothing. *)
Definition write_error (fs : gmap string csv) (path : string) : option exn :=
  if bool_decide (path = "") then Some (FileNotFoundError path)
  else match String.index 0 "/" path with
       | Some _ => Some (OSError "Cannot save file into a non-existent directory")
       | None => None
       end.

(** Of the files that are not regular, a header without data lines is read
    as a frame without rows; the others are refused here. *)
Definition read_irregular (f : csv) : exn + DataFrame :=
  if bool_decide (rows f = [] ∧ NoDup (header f) ∧ "" ∉ header f)
  then inr (frame_of_csv f)
  else inl ParserError.

Definition lib : library :=
  Library nat Z.to_nat gauss mean var std corrcoef01 lstsq1
          (fixed 2) (fixed 4) py_format read_irregular write_error.

(** A fresh process: no file, nothing printed, nothing drawn. *)
Definition w0 : world lib := @World lib ∅ [] 0 [] [].

(** The world after the Generator ran in it. *)
Definition w1 : world lib := (create_dummy_data lib "experiment_data.csv" w0).2.

(** Three measurements, the second without its voltage, and the same three
    with it; a world holding each as a file. *)
Definition gapped : DataFrame :=
  [("Current_A", [1; 2; 3]%float); ("Voltage_V", [5; nan; 15]%float)].
Definition complete : DataFrame :=
  [("Current_A", [1; 2; 3]%float); ("Voltage_V", [5; 10; 15]%float)].
Definition w2 : world lib :=
  @World lib {[ "gapped.csv" := csv_of_frame gapped;
                "complete.csv" := csv_of_frame complete ]} [] 0 [] [].

End Demo.

(** ** IEEE facts: where a NaN can come from *)

Section Rounding.

Local Open Scope Z_scope.

Lemma shr_1_nonneg mrs : 0 ≤ shr_m mrs → 0 ≤ shr_m (shr_1 mrs).
Proof. destruct mrs as [[|[p|p|]|p] r s]; simpl; lia. Qed.

Lemma iter_shr_1_nonneg n mrs :
  0 ≤ shr_m mrs → 0 ≤ shr_m (SpecFloat.iter_pos shr_1 n mrs).
Proof.
  revert mrs. induction n as [n IH|n IH|]; intros mrs Hm; simpl;
    auto using shr_1_nonneg.
Qed.

Lemma shr_fexp_nonneg m e l :
  0 ≤ m → 0 ≤ shr_m (shr_fexp prec emax m e l).1.
Proof.
  intros Hm. unfold shr_fexp, shr.
  assert (0 ≤ shr_m (shr_record_of_loc m l)) by (by destruct l as [|[]]).
  destruct (fexp prec emax (Zdigits2 m + e) - e); simpl;
    auto using iter_shr_1_nonneg.
Qed.

Lemma round_nearest_even_nonneg m l : 0 ≤ m → 0 ≤ round_nearest_even m l.
Proof.
  intros Hm. destruct l as [|[]]; simpl; try lia. destruct (Z.even m); lia.
Qed.

(** Rounding a non-negative significand never produces a NaN. *)
Lemma binary_round_aux_not_nan sx m e l :
  0 ≤ m → binary_round_aux prec emax sx m e l ≠ S754_nan.
Proof.
  intros Hm. unfold binary_round_aux.
  pose proof (shr_fexp_nonneg m e l Hm) as H1.
  destruct (shr_fexp prec emax m e l) as [mrs' e']. simpl in H1.
  pose proof (shr_fexp_nonneg _ e' loc_Exact
                (round_nearest_even_nonneg _ (loc_of_shr_record mrs') H1)) as H2.
  destruct (shr_fexp prec emax _ e' loc_Exact) as [mrs'' e'']. simpl in H2.
  destruct (shr_m mrs'') as [|p|p]; [done| |lia].
  by destruct (e'' <=? emax - prec).
Qed.

Lemma binary_normalize_not_nan m e s :
  binary_normalize prec emax m e s ≠ S754_nan.
Proof.
  destruct m as [|p|p]; simpl; [done| |]; unfold binary_round;
    destruct (shl_align _ _ _); by apply binary_round_aux_not_nan.
Qed.

End Rounding.

Lemma isnan_spec x : isnan x = true ↔ Prim2SF x = S754_nan.
Proof.
  unfold isnan, is_nan. rewrite FloatAxioms.eqb_spec.
  unfold SFeqb. destruct (Prim2SF x) as [s|s| |s m e]; simpl.
  - by destruct s.
  - by destruct s.
  - done.
  - rewrite Z.compare_refl, Pos.compare_refl. by destruct s.
Qed.

Lemma isnan_false x : isnan x = false ↔ Prim2SF x ≠ S754_nan.
Proof. rewrite <- isnan_spec. by destruct (isnan x). Qed.

(** Adding a finite number to anything but a NaN does not give a NaN. *)
Lemma add_not_nan x y :
  finite x = true → isnan y = false → isnan (x + y) = false.
Proof.
  unfold finite. rewrite !isnan_false, FloatAxioms.add_spec. unfold SF64add, SFadd.
  destruct (Prim2SF x) as [sx|sx| |sx mx ex], (Prim2SF y) as [sy|sy| |sy my ey];
    try done; intros _ _.
  - by destruct sx, sy.
  - apply binary_normalize_not_nan.
Qed.

(** Scaling anything but a NaN by a finite non-zero number does not give a
    NaN. *)
Lemma mul_not_nan x y :
  finite_nonzero x = true → isnan y = false → isnan (x * y) = false.
Proof.
  unfold finite_nonzero. rewrite !isnan_false, FloatAxioms.mul_spec. unfold SF64mul, SFmul.
  destruct (Prim2SF x) as [sx|sx| |sx mx ex], (Prim2SF y) as [sy|sy| |sy my ey];
    try done; intros _ _.
  by apply binary_round_aux_not_nan.
Qed.

(** ** Boolean indexing *)

Section Keep.

Context {A : Type}.
Implicit Types (mask : list bool) (a : list A).

Lemma keep_nil_r mask : keep mask (@nil A) = [].
Proof. by destruct mask. Qed.

(** An entry that survives sat under a set flag. *)
Lemma elem_of_keep mask a x :
  x ∈ keep mask a → ∃ i, mask !! i = Some true ∧ a !! i = Some x.
Proof.
  revert a. induction mask as [|b mask IH]; intros [|y a]; simpl;
    try (by intros ?%elem_of_nil).
  destruct b.
  - intros [->|Hx]%elem_of_cons; [by exists 0|].
    destruct (IH _ Hx) as (i & ? & ?). by exists (S i).
  - intros Hx. destruct (IH _ Hx) as (i & ? & ?). by exists (S i).
Qed.

(** Indexing keeps the order of the entries. *)
Lemma keep_sublist mask a : keep mask a `sublist_of` a.
Proof.
  revert a. induction mask as [|b mask IH]; intros [|y a]; simpl;
    try apply sublist_nil_l.
  destruct b; [by apply sublist_skip | by apply sublist_cons].
Qed.

(** The number of survivors is the number of set flags. *)
Lemma length_keep mask a :
  length a = length mask →
  length (keep mask a) = length (filter (λ b, b = true) mask).
Proof.
  revert a. induction mask as [|b mask IH]; intros [|y a] Hlen;
    simplify_eq/=; [done|].
  destruct b.
  - rewrite filter_cons_True by done. simpl. by rewrite IH.
  - rewrite filter_cons_False by done. simpl. by apply IH.
Qed.

(** With every flag set nothing is dropped. *)
Lemma keep_all mask a :
  Forall (λ b, b = true) mask → length a = length mask → keep mask a = a.
Proof.
  intros Hall. revert a.
  induction Hall as [|b mask -> _ IH]; intros [|y a] Hlen;
    simplify_eq/=; [done|].
  by rewrite IH.
Qed.

(** A mask computed entry by entry is a filter. *)
Lemma keep_map (p : A → bool) a : keep (map p a) a = filter (λ x, p x = true) a.
Proof.
  induction a as [|y a IH]; [done|].
  destruct (p y) eqn:Hp.
  - rewrite filter_cons_True by done. simpl. by rewrite Hp, IH.
  - rewrite filter_cons_False by (by rewrite Hp). simpl. by rewrite Hp.
Qed.

End Keep.

(** Two arrays indexed by one mask stay aligned. *)
Lemma keep_zip {A B} (mask : list bool) (a : list A) (b : list B) :
  keep mask (zip a b) = zip (keep mask a) (keep mask b).
Proof.
  revert a b. induction mask as [|f mask IH]; intros [|x a] [|y b]; simpl;
    try done.
  - destruct f; [done|]. by destruct (keep mask a).
  - destruct f; by rewrite IH.
Qed.

(** ** The cleaning step *)

Lemma length_dropna_mask df : length (dropna_mask df) = nrows df.
Proof. unfold dropna_mask. by rewrite length_map, length_seq. Qed.

Lemma dropna_mask_lookup df i :
  dropna_mask df !! i = Some true → row_complete df i = true.
Proof.
  unfold dropna_mask. rewrite list_lookup_fmap.
  destruct (seq 0 (nrows df) !! i) as [j|] eqn:Hj; [|done].
  apply lookup_seq in Hj as [-> _]. simpl. congruence.
Qed.

Lemma rect_length df n c :
  rect df = true → (n, c) ∈ df → length c = nrows df.
Proof.
  unfold rect. rewrite forallb_forall. intros Hall Hin.
  apply list_elem_of_In, Hall in Hin. by apply bool_decide_eq_true in Hin.
Qed.

(** Looking a column up commutes with a column-wise transformation. *)
Lemma column_map (g : ndarray → ndarray) df name :
  column (map (λ nc, (nc.1, g nc.2)) df) name = g <$> column df name.
Proof.
  induction df as [|[n c] df IH]; [done|]. simpl.
  by case_bool_decide.
Qed.

Lemma column_dropna df name :
  column (dropna df) name = keep (dropna_mask df) <$> column df name.
Proof. apply column_map. Qed.

Lemma column_elem_of df name c : column df name = Some c → (name, c) ∈ df.
Proof.
  induction df as [|[n c'] df IH]; [done|]. simpl.
  case_bool_decide; intros; simplify_eq; [left | right; auto].
Qed.

Lemma length_dropna df : length (dropna df) = length df.
Proof. apply length_map. Qed.

(** No value of [dropna df] is missing. *)
Lemma isnull_any_dropna df : isnull_any (dropna df) = false.
Proof.
  apply not_true_is_false. unfold isnull_any, dropna.
  rewrite existsb_exists. intros ([n c'] & Hin & Hnan).
  apply in_map_iff in Hin as ([n0 c] & [= <- <-] & Hin).
  apply existsb_exists in Hnan as (x & Hx & Hnan).
  apply list_elem_of_In, elem_of_keep in Hx as (i & Hi & Hci).
  apply dropna_mask_lookup in Hi. unfold row_complete in Hi.
  rewrite forallb_forall in Hi. specialize (Hi _ Hin). simpl in Hi.
  rewrite nth_lookup, Hci in Hi. simpl in Hi. by rewrite Hnan in Hi.
Qed.

Lemma count_flags {A} (f : A → bool) (l : list A) :
  length (filter (λ b, b = true) (map f l))
  = length l - length (filter (λ i, f i = false) l).
Proof.
  induction l as [|x l IH]; [done|].
  assert (length (filter (λ i, f i = false) l) ≤ length l)
    by apply length_filter.
  simpl map. destruct (f x) eqn:Hf.
  - rewrite filter_cons_True by done.
    rewrite (filter_cons_False (λ i, f i = false)) by congruence.
    simpl. lia.
  - rewrite filter_cons_False by done.
    rewrite (filter_cons_True (λ i, f i = false)) by done.
    simpl. lia.
Qed.

(** [dropna] removes exactly the rows with a missing field. *)
Lemma nrows_dropna df : nrows (dropna df) = nrows df - incomplete_rows df.
Proof.
  transitivity (length (filter (λ b, b = true) (dropna_mask df))).
  - destruct df as [|[n c] df]; [done|].
    change (nrows (dropna ((n, c) :: df)))
      with (length (keep (dropna_mask ((n, c) :: df)) c)).
    apply length_keep. by rewrite length_dropna_mask.
  - unfold dropna_mask, incomplete_rows. by rewrite count_flags, length_seq.
Qed.

Lemma incomplete_rows_le df : incomplete_rows df ≤ nrows df.
Proof.
  unfold incomplete_rows.
  etrans; [apply length_filter|]. by rewrite length_seq.
Qed.

(** On a frame without missing values every flag of the mask is set. *)
Lemma dropna_mask_all df :
  rect df = true → isnull_any df = false →
  Forall (λ b, b = true) (dropna_mask df).
Proof.
  intros Hrect Hnone. unfold dropna_mask.
  apply Forall_fmap, Forall_forall. intros i Hi%elem_of_seq. simpl.
  unfold row_complete. apply forallb_forall. intros [n c] Hin. simpl.
  apply negb_true_iff, not_true_is_false. intros Hnan.
  apply not_true_iff_false in Hnone. apply Hnone.
  unfold isnull_any. apply existsb_exists. exists (n, c). split; [done|].
  apply existsb_exists. exists (nth i c nan). split; [|done].
  apply nth_In. apply list_elem_of_In in Hin. simpl.
  rewrite (rect_length df n c) by done. lia.
Qed.

(** [dropna] leaves a frame without missing values as it is. *)
Lemma dropna_id df :
  rect df = true → isnull_any df = false → dropna df = df.
Proof.
  intros Hrect Hnone. unfold dropna.
  transitivity (map id df); [|apply map_id].
  apply map_ext_in. intros [n c] Hin. simpl.
  f_equal. apply keep_all; [by apply dropna_mask_all|].
  rewrite length_dropna_mask. apply (rect_length df n).
  - done.
  - by apply list_elem_of_In.
Qed.

Lemma isnull_any_clean df : isnull_any (clean df) = false.
Proof.
  unfold clean. destruct (isnull_any df) eqn:Hany; [|done].
  apply isnull_any_dropna.
Qed.

(** A frame without missing value has none in any of its columns. *)
Lemma column_no_nan df name c :
  isnull_any df = false → column df name = Some c →
  Forall (λ x, isnan x = false) c.
Proof.
  intros Hany Hc%column_elem_of. apply Forall_forall. intros x Hx.
  apply not_true_is_false. intros Hnan.
  apply not_true_iff_false in Hany. apply Hany.
  unfold isnull_any. apply existsb_exists. exists (name, c).
  split; [by apply list_elem_of_In|].
  apply existsb_exists. exists x. split; [by apply list_elem_of_In|done].
Qed.

(** ** Running the script *)

(** The pyplot calls of lines 77-80, which come before the fitted line. *)
Definition before_fit (c : plt_call) : bool :=
  match c with
  | Figure _ _ | Scatter _ _ _ _ _ => true
  | _ => false
  end.

Section Runs.

Context (L : library).
Implicit Types (w : world L) (filename : string).

(** The lines the Analyzer prints for a file that loads as [raw], up to the
    cleaned shape (lines 38-49). *)
Definition shape_report filename (raw : DataFrame) : list string :=
  [ "Loading data from " +:+ filename +:+ "...";
    "Raw data shape: " +:+ show_shape (shape raw) ]
  ++ (if isnull_any raw
      then ["Missing values detected. Dropping incomplete rows..."]
      else [])
  ++ [ "Cleaned data shape: " +:+ show_shape (shape (clean raw)) ].

(** The lines it prints up to the correlation line (lines 38-74), the
    statistics being those of the arrays [current] and [voltage]. *)
Definition analysis_report filename (raw : DataFrame)
    (current voltage : ndarray) : list string :=
  shape_report filename raw
  ++ [ newline +:+ "--- Statistical Analysis ---";
       "Voltage Mean: " +:+ fmt2 L (np_mean L voltage) +:+ " V";
       "Voltage Variance: " +:+ fmt2 L (np_var L voltage) +:+ " V^2";
       "Voltage Std Dev: " +:+ fmt2 L (np_std L voltage) +:+ " V";
       "Correlation (Current vs Voltage): "
         +:+ fmt4 L (corrcoef01 L current voltage) ].

(** The frame objects the Analyzer allocates for such a file: the loaded
    one, then the cleaned copy when something was missing. *)
Definition analysis_objects (raw : DataFrame) : list DataFrame :=
  raw :: (if isnull_any raw then [dropna raw] else []).

Lemma heap_lookup_new (h : list DataFrame) df rest :
  (h ++ df :: rest) !! length h = Some df.
Proof. by apply list_lookup_middle. Qed.

(** [resistance] is a local of [create_dummy_data] only: in
    [process_and_analyze] it is read as a global, and no global has that
    name. *)
Lemma load_global_resistance :
  load_global L "resistance" = raise L (NameError "resistance").
Proof. reflexivity. Qed.

Lemma resistance_unbound :
  ("resistance" ∉ process_and_analyze_locals)
  ∧ ("resistance" ∉ module_globals.*1).
Proof.
  split; intros Hin;
    repeat (apply elem_of_cons in Hin as [Hin|Hin]; [discriminate|]);
    by apply elem_of_nil in Hin.
Qed.

Local Arguments String.append : simpl never.
Local Arguments parse_csv : simpl never.
Local Arguments column : simpl never.
Local Arguments isnull_any : simpl never.
Local Arguments dropna : simpl never.
Local Arguments show_shape : simpl never.

Local Arguments np_reduce : simpl never.

Local Ltac run :=
  cbv [bind print deref df_dropna alloc df_values ret raise plt
       np_corrcoef np_polyfit os_path_exists read_csv];
  simpl.

(** On an array with an entry the reductions return, whatever the dtype. *)
Lemma np_reduce_nonempty f t (a : ndarray) :
  a ≠ [] → np_reduce L f t a = ret L (f a).
Proof. by destruct t, a. Qed.

Lemma np_reduce_float64 f (a : ndarray) :
  np_reduce L f float64 a = ret L (f a).
Proof. by destruct a. Qed.

(** The columns of a frame with a row were read with a numeric dtype. *)
Lemma read_dtype_rows raw : nrows raw ≠ 0 → read_dtype raw = float64.
Proof. intros Hrows. unfold read_dtype. by rewrite bool_decide_false. Qed.

(** The Analyzer on a file that loads, has both columns and keeps at least
    one row: it stops at line 85 with [NameError], after the scatter plot. *)
Lemma process_and_analyze_loaded w filename f raw current voltage :
  files w !! filename = Some f →
  parse_csv L f = inr raw →
  column (clean raw) "Current_A" = Some current →
  column (clean raw) "Voltage_V" = Some voltage →
  length current = length voltage →
  length current ≠ 0 →
  process_and_analyze L filename w =
    (Raise (NameError "resistance"),
     World (files w)
           (stdout w ++ analysis_report filename raw current voltage)
           (rng w)
           (figure w ++ [ Figure 10 6;
                          Scatter current voltage "blue" "Experimental Data" 0.7 ])
           (heap w ++ analysis_objects raw)).
Proof.
  intros Hfile Hparse Hcur Hvol Hlen Hne.
  assert (current ≠ [] ∧ voltage ≠ []) as [Hc0 Hv0].
  { split; intros ->; simpl in *; lia. }
  unfold process_and_analyze. rewrite load_global_resistance.
  run. rewrite Hfile, bool_decide_true by eauto. simpl.
  rewrite Hfile, Hparse. simpl. rewrite !heap_lookup_new. simpl.
  unfold analysis_report, shape_report, analysis_objects, clean in *.
  destruct (isnull_any raw) eqn:Hany; simpl;
    rewrite ?heap_lookup_new; simpl; rewrite Hcur; simpl;
    rewrite ?heap_lookup_new; simpl; rewrite Hvol; simpl;
    repeat (rewrite np_reduce_nonempty by done; cbv [ret]; simpl);
    rewrite (bool_decide_true (length current = length voltage)) by done;
    simpl; rewrite bool_decide_false by done; simpl;
    destruct (lstsq1 L current voltage) as [m b]; simpl;
    by rewrite <- !app_assoc.
Qed.

(** The Analyzer on a path that names no file: one line is printed and
    the call returns (lines 34-36). *)
Lemma process_and_analyze_missing w filename :
  files w !! filename = None →
  process_and_analyze L filename w =
    (Ok tt,
     World (files w)
           (stdout w ++ ["Error: File " +:+ filename +:+ " not found."])
           (rng w) (figure w) (heap w)).
Proof.
  intros Hfile. unfold process_and_analyze. run.
  rewrite Hfile, bool_decide_false by (by intros [? ?]). done.
Qed.

(** Every run of the Analyzer on an existing file ends in an exception; it
    changes no file, prints after what was printed, draws nothing beyond
    the figure and the scatter plot, and allocates the loaded frame and,
    when something was missing, its cleaned copy. *)
Lemma process_and_analyze_existing w filename f :
  files w !! filename = Some f →
  ∃ e w',
    process_and_analyze L filename w = (Raise e, w')
    ∧ files w' = files w ∧ rng w' = rng w
    ∧ stdout w `prefix_of` stdout w'
    ∧ (∃ draws, figure w' = figure w ++ draws
                ∧ forallb before_fit draws = true)
    ∧ (∃ objs, heap w' = heap w ++ objs
               ∧ ∀ raw, parse_csv L f = inr raw → objs = analysis_objects raw)
    ∧ (∀ raw, parse_csv L f = inr raw →
         (stdout w ++ shape_report filename raw) `prefix_of` stdout w').
Proof.
  intros Hfile. unfold process_and_analyze. rewrite load_global_resistance.
  run. cbv [np_reduce ret raise].
  rewrite Hfile, bool_decide_true by eauto. simpl. rewrite Hfile.
  destruct (parse_csv L f) as [e|raw] eqn:Hparse; simpl.
  { do 2 eexists. split; [done|]. simpl. split_and!; try done.
    - by apply prefix_app_r.
    - exists []. by rewrite app_nil_r.
    - exists []. by rewrite app_nil_r. }
  rewrite !heap_lookup_new. simpl.
  assert (∀ objs, objs = analysis_objects raw →
            ∀ raw', inr raw = inr (A:=exn) raw' → objs = analysis_objects raw')
    as Hobjs by (by intros ? -> ? [= <-]).
  assert (∀ lines, (stdout w ++ shape_report filename raw) `prefix_of` lines →
            ∀ raw', inr raw = inr (A:=exn) raw' →
              (stdout w ++ shape_report filename raw') `prefix_of` lines)
    as Hshape by (by intros ? ? ? [= <-]).
  unfold analysis_objects in Hobjs. unfold shape_report, clean in Hshape.
  destruct (isnull_any raw) eqn:Hany; simpl; rewrite ?heap_lookup_new; simpl.
  all: repeat case_match; simplify_eq/=.
  all: do 2 eexists; (split; [reflexivity|]); simpl.
  all: split_and!; try done.
  all: try (by repeat apply prefix_app_r).
  all: try (by exists []; rewrite app_nil_r).
  all: try (by eexists; rewrite <- ?app_assoc; split; [reflexivity|]).
  all: try (eexists; rewrite <- ?app_assoc; (split; [reflexivity|]);
            by apply Hobjs).
  all: apply Hshape; rewrite <- ?app_assoc; apply prefix_app; simpl.
  all: repeat apply prefix_cons; apply prefix_nil.
Qed.

Lemma length_normal loc scale size st :
  length (normal L loc scale size st).1 = size.
Proof.
  revert st. induction size as [|n IH]; intros st; [done|]. simpl.
  destruct (gauss L st) as [g st1]. specialize (IH st1).
  destruct (normal L loc scale n st1) as [rest st2]. simpl in *. by rewrite IH.
Qed.

Lemma length_current : length current = 50.
Proof. reflexivity. Qed.

Lemma length_noise : length (noise L) = 50.
Proof. apply length_normal. Qed.

Lemma length_voltage : length (voltage L) = 50.
Proof.
  unfold voltage.
  rewrite !length_insert, length_zip_with, length_map, length_noise.
  by rewrite length_current.
Qed.

Local Arguments linspace : simpl never.
Local Arguments current : simpl never.
Local Arguments normal : simpl never.
Local Arguments csv_of_frame : simpl never.

(** The Generator seeds, draws and builds [dummy_frame]; then either the
    write is refused and its exception ends the call, or the file is written,
    one line is printed and the argument is returned. *)
Lemma create_dummy_data_cases w filename :
  create_dummy_data L filename w =
    match write_error L (files w) filename with
    | Some e =>
        (Raise e,
         World (files w) (stdout w) (normal L 0 2.5 50 (seed_state L 42)).2
               (figure w) (heap w ++ [dummy_frame L]))
    | None =>
        (Ok filename,
         World (<[filename := csv_of_frame (dummy_frame L)]> (files w))
               (stdout w ++ ["Created dummy dataset: " +:+ filename])
               (normal L 0 2.5 50 (seed_state L 42)).2
               (figure w)
               (heap w ++ [dummy_frame L]))
    end.
Proof.
  unfold create_dummy_data. change (linspace 0 10 50) with current.
  cbv [bind np_random_seed np_random_normal np_add setitem pd_DataFrame
       to_csv deref alloc print ret raise].
  cbn [rng files stdout figure heap].
  pose proof length_noise as Hn. pose proof length_current as Hc.
  unfold dummy_frame, voltage, noise in *.
  destruct (normal L 0 2.5 50 (seed_state L 42)) as [nz st].
  cbn [fst snd] in *. cbv beta iota zeta.
  rewrite bool_decide_true by (by rewrite length_map, Hc, Hn).
  cbv beta iota zeta.
  rewrite bool_decide_true
    by (rewrite length_zip_with, length_map, Hc, Hn; simpl; lia).
  cbv beta iota zeta.
  rewrite bool_decide_true
    by (rewrite length_insert, length_zip_with, length_map, Hc, Hn; simpl; lia).
  cbv beta iota zeta.
  replace (rect _) with true; cycle 1.
  { symmetry. unfold rect. cbn [forallb nrows snd andb].
    rewrite !length_insert, length_zip_with, length_map, Hc, Hn.
    by rewrite !bool_decide_true by done. }
  cbv beta iota zeta. cbn [rng files stdout figure heap].
  destruct (write_error L (files w) filename) as [e|]; [done|].
  by rewrite heap_lookup_new.
Qed.

(** The Generator where the write succeeds. *)
Lemma create_dummy_data_run w filename :
  write_error L (files w) filename = None →
  create_dummy_data L filename w =
    (Ok filename,
     World (<[filename := csv_of_frame (dummy_frame L)]> (files w))
           (stdout w ++ ["Created dummy dataset: " +:+ filename])
           (normal L 0 2.5 50 (seed_state L 42)).2
           (figure w)
           (heap w ++ [dummy_frame L])).
Proof. intros Hw. by rewrite create_dummy_data_cases, Hw. Qed.

(** The Generator where the write is refused: nothing is written or
    printed. *)
Lemma create_dummy_data_refused w filename e :
  write_error L (files w) filename = Some e →
  create_dummy_data L filename w =
    (Raise e,
     World (files w) (stdout w) (normal L 0 2.5 50 (seed_state L 42)).2
           (figure w) (heap w ++ [dummy_frame L])).
Proof. intros Hw. by rewrite create_dummy_data_cases, Hw. Qed.

(** The Generator returns exactly when the write succeeds. *)
Lemma create_dummy_data_returns w filename :
  (create_dummy_data L filename w).1 = Ok filename
  ↔ write_error L (files w) filename = None.
Proof.
  rewrite create_dummy_data_cases.
  by destruct (write_error L (files w) filename).
Qed.

End Runs.

(** ** The generated dataset *)

Lemma map_nth_zip {A B C} (g : A → B → C) (a : list A) (b : list B) da db :
  length a = length b →
  map (λ i, g (nth i a da) (nth i b db)) (seq 0 (length a)) = zip_with g a b.
Proof.
  revert b. induction a as [|x a IH]; intros [|y b] Hlen; simplify_eq/=; [done|].
  f_equal. rewrite <- fmap_S_seq, <- list_fmap_compose. by apply IH.
Qed.

Lemma map_zip_with_l {A B C D} (h : C → D) (g : A → B → C) (k : A → D) a b :
  (∀ x y, h (g x y) = k x) → length a ≤ length b →
  map h (zip_with g a b) = map k a.
Proof.
  intros Hk. revert b. induction a as [|x a IH]; intros [|y b] Hlen;
    simpl in *; try done; try lia.
  rewrite Hk, IH; [done|lia].
Qed.

Lemma map_zip_with_r {A B C D} (h : C → D) (g : A → B → C) (k : B → D) a b :
  (∀ x y, h (g x y) = k y) → length b ≤ length a →
  map h (zip_with g a b) = map k b.
Proof.
  intros Hk. revert b. induction a as [|x a IH]; intros [|y b] Hlen;
    simpl in *; try done; try lia.
  rewrite Hk, IH; [done|lia].
Qed.



Lemma current_fields : map to_field current = map Some current.
Proof. vm_compute. reflexivity. Qed.

Lemma current_times_5_finite :
  forallb finite (map (λ c, (c * 5)%float) current) = true.
Proof. vm_compute. reflexivity. Qed.

Section Generated.

Context (L : library).

Local Arguments current : simpl never.

(** The file the Generator writes, line by line. *)
Lemma csv_of_dummy_frame :
  csv_of_frame (dummy_frame L) =
    Csv ["Current_A"; "Voltage_V"]
        (zip_with (λ c v, [to_field c; to_field v]) current (voltage L)).
Proof.
  unfold csv_of_frame, dummy_frame. cbn [map fst snd nrows]. f_equal.
  apply (map_nth_zip (λ c v, [to_field c; to_field v])).
  by rewrite length_current, length_voltage.
Qed.

Lemma dummy_rows_current :
  csv_column (csv_of_frame (dummy_frame L)) "Current_A"
  = Some (map to_field current).
Proof.
  rewrite csv_of_dummy_frame. unfold csv_column. cbn [header rows].
  change (list_find _ _) with (Some (0, "Current_A")). f_equal.
  apply map_zip_with_l; [done|].
  by rewrite length_current, length_voltage.
Qed.

Lemma dummy_rows_voltage :
  csv_column (csv_of_frame (dummy_frame L)) "Voltage_V"
  = Some (map to_field (voltage L)).
Proof.
  rewrite csv_of_dummy_frame. unfold csv_column. cbn [header rows].
  change (list_find _ _) with (Some (1, "Voltage_V")). f_equal.
  apply map_zip_with_r; [done|].
  by rewrite length_current, length_voltage.
Qed.



Lemma voltage_fields_length : length (map to_field (voltage L)) = 50.
Proof. by rewrite length_map, length_voltage. Qed.

Lemma dummy_rows_length : length (rows (csv_of_frame (dummy_frame L))) = 50.
Proof.
  rewrite csv_of_dummy_frame. cbn [rows].
  by rewrite length_zip_with, length_current, length_voltage.
Qed.

Lemma dummy_rows_width :
  Forall (λ r, length r = 2) (rows (csv_of_frame (dummy_frame L))).
Proof.
  rewrite csv_of_dummy_frame. cbn [rows]. apply Forall_forall.
  by intros r (i & c & v & -> & _)%elem_of_lookup_zip_with.
Qed.


(** C9: two calls of the Generator with one path, from any two worlds
    (so also one call after the other), that both return (the write is
    refused in neither), leave the same file at that path and the same
    random state: the seed is set to 42 inside the function on every call. *)
Theorem create_dummy_data_deterministic (w1 w2 : world L) (filename : string) :
  let r1 := create_dummy_data L filename w1 in
  let r2 := create_dummy_data L filename w2 in
  r1.1 = Ok filename →
  r2.1 = Ok filename →
  is_Some (files r1.2 !! filename)
  ∧ files r1.2 !! filename = files r2.2 !! filename
  ∧ rng r1.2 = rng r2.2.
Proof.
  intros r1 r2 H1%create_dummy_data_returns H2%create_dummy_data_returns.
  unfold r1, r2. rewrite !create_dummy_data_run by done.
  cbn [fst snd files rng]. rewrite !lookup_insert_eq. eauto.
Qed.

End Generated.


(** ** Missing values of the generated dataset *)

Lemma current_not_nan : Forall (λ c, isnan c = false) current.
Proof.
  assert (forallb (λ c, negb (isnan c)) current = true) as Hall
    by (vm_compute; reflexivity).
  rewrite forallb_forall in Hall. apply Forall_forall. intros c Hc.
  by apply negb_true_iff, Hall, list_elem_of_In.
Qed.

Section Missing.

Context (L : library).
Hypothesis Hdraws : draws_numbers L.

Local Arguments current : simpl never.

(** No draw of [np.random.normal(0, 2.5, n)] is a NaN. *)
Lemma normal_not_nan size st :
  Forall (λ x, isnan x = false) (normal L 0 2.5 size st).1.
Proof.
  revert st. induction size as [|n IH]; intros st; simpl; [constructor|].
  pose proof (Hdraws st) as Hg. destruct (gauss L st) as [g st1].
  specialize (IH st1). destruct (normal L 0 2.5 n st1) as [rest st2].
  simpl in *. constructor; [|done].
  apply add_not_nan; [done|]. by apply mul_not_nan.
Qed.

Lemma noise_not_nan : Forall (λ x, isnan x = false) (noise L).
Proof. apply normal_not_nan. Qed.

(** Before lines 17-18 no voltage is a NaN. *)
Lemma ohm_not_nan :
  Forall (λ v, isnan v = false)
         (zip_with PrimFloat.add (map (λ c, (c * 5)%float) current) (noise L)).
Proof.
  apply Forall_forall. intros v (i & x & n & -> & Hx & Hn)%elem_of_lookup_zip_with.
  apply add_not_nan.
  - pose proof current_times_5_finite as Hfin.
    rewrite forallb_forall in Hfin. apply Hfin, list_elem_of_In.
    by eapply list_elem_of_lookup_2.
  - pose proof noise_not_nan as Hnoise.
    rewrite Forall_forall in Hnoise. apply Hnoise.
    by eapply list_elem_of_lookup_2.
Qed.

(** The voltages that are NaN are those of rows 5 and 15. *)
Lemma voltage_nan_iff i v :
  voltage L !! i = Some v → isnan v = true ↔ i = 5 ∨ i = 15.
Proof.
  unfold voltage. intros Hv.
  destruct (decide (i = 15)) as [->|H15].
  { rewrite list_lookup_insert_eq in Hv; [simplify_eq; split; [auto | reflexivity]|].
    rewrite length_insert, length_zip_with, length_map, length_noise.
    rewrite length_current. simpl. lia. }
  rewrite list_lookup_insert_ne in Hv by done.
  destruct (decide (i = 5)) as [->|H5].
  { rewrite list_lookup_insert_eq in Hv; [simplify_eq; split; [auto | reflexivity]|].
    rewrite length_zip_with, length_map, length_noise, length_current.
    simpl. lia. }
  rewrite list_lookup_insert_ne in Hv by done.
  pose proof ohm_not_nan as Hall. rewrite Forall_forall in Hall.
  apply list_elem_of_lookup_2, Hall in Hv. rewrite Hv. split; [done|lia].
Qed.

Lemma to_field_None v : to_field v = None ↔ isnan v = true.
Proof. unfold to_field. by destruct (isnan v). Qed.

(** C4: when the library's draws are numbers, the file the Generator writes
    (where the path can be opened for writing)
    has 50 [Current_A] fields, none of them empty, and 50 [Voltage_V] fields,
    of which exactly those of lines 5 and 15 are empty. *)
Theorem generator_missing_values (w : world L) (filename : string) :
  write_error L (files w) filename = None →
  ∃ file cs vs,
    files (create_dummy_data L filename w).2 !! filename = Some file
    ∧ csv_column file "Current_A" = Some cs
    ∧ csv_column file "Voltage_V" = Some vs
    ∧ length cs = 50 ∧ length vs = 50
    ∧ Forall (λ c, c ≠ None) cs
    ∧ ∀ i, vs !! i = Some None ↔ i = 5 ∨ i = 15.
Proof.
  intros Hwrite.
  exists (csv_of_frame (dummy_frame L)), (map to_field current),
         (map to_field (voltage L)).
  rewrite create_dummy_data_run by done. cbn [snd files]. split_and!.
  - apply lookup_insert_eq.
  - apply dummy_rows_current.
  - apply dummy_rows_voltage.
  - by rewrite length_map, length_current.
  - by rewrite length_map, length_voltage.
  - rewrite current_fields. apply Forall_forall.
    by intros c (x & -> & _)%list_elem_of_fmap.
  - intros i. rewrite list_lookup_fmap. split.
    + destruct (voltage L !! i) as [v|] eqn:Hv; [|done]. simpl.
      intros [= Hnone%to_field_None]. by apply (voltage_nan_iff i v).
    + intros Hi.
      destruct (lookup_lt_is_Some_2 (voltage L) i) as [v Hv].
      { rewrite length_voltage. lia. }
      rewrite Hv. simpl. f_equal. apply to_field_None.
      by apply (voltage_nan_iff i v).
Qed.

End Missing.

(** ** Reading back what was written *)

(** Binary64 values are compared up to the NaN payload, which [float] does
    not carry: a NaN is [nan]. *)
Lemma isnan_eq_nan x : isnan x = true → x = nan.
Proof. intros Hx%isnan_spec. by apply Prim2SF_inj. Qed.

Lemma of_to_field x : of_field (to_field x) = x.
Proof.
  unfold to_field. destruct (isnan x) eqn:Hx; [|done].
  symmetry. by apply isnan_eq_nan.
Qed.

(** The frame of a file is rectangular. *)
Lemma rect_frame_of_csv f : rect (frame_of_csv f) = true.
Proof.
  unfold rect. apply forallb_forall. intros [n c] Hin%list_elem_of_In.
  apply bool_decide_eq_true. simpl.
  assert (∀ n c, (n, c) ∈ frame_of_csv f → length c = length (rows f)) as Hlen.
  { unfold frame_of_csv. intros n' c' (j & name & [= -> ->] & _)%elem_of_lookup_imap.
    by rewrite length_map. }
  rewrite (Hlen _ _ Hin).
  destruct (frame_of_csv f) as [|[n0 c0] df] eqn:Hdf; [by apply elem_of_nil in Hin|].
  simpl. symmetry. apply (Hlen n0). left.
Qed.

Lemma filter_ext_elem {A} (P Q : A → Prop)
    `{!∀ x, Decision (P x)} `{!∀ x, Decision (Q x)} (l : list A) :
  (∀ x, x ∈ l → P x ↔ Q x) → filter P l = filter Q l.
Proof.
  induction l as [|x l IH]; intros Hext; [done|].
  rewrite !filter_cons.
  rewrite IH by (intros y Hy; apply Hext; by right).
  destruct (decide (P x)) as [HP|HP], (decide (Q x)) as [HQ|HQ]; try done.
  - by apply Hext in HP; [|left].
  - by apply Hext in HQ; [|left].
Qed.

Section Reloaded.

Context (L : library).

Local Arguments current : simpl never.

(** [read_csv] of the Generator's file gives back the Generator's frame. *)
Lemma parse_dummy_frame :
  parse_csv L (csv_of_frame (dummy_frame L)) = inr (dummy_frame L).
Proof.
  unfold parse_csv.
  assert (regular (csv_of_frame (dummy_frame L)) = true) as ->.
  { unfold regular. rewrite !andb_true_iff. split_and!.
    - by rewrite csv_of_dummy_frame.
    - by rewrite csv_of_dummy_frame.
    - apply negb_true_iff, bool_decide_eq_false. intros Hnil.
      pose proof (dummy_rows_length L) as Hlen. by rewrite Hnil in Hlen.
    - apply forallb_forall. intros r Hr%list_elem_of_In.
      apply bool_decide_eq_true.
      pose proof (dummy_rows_width L) as Hw. rewrite Forall_forall in Hw.
      rewrite (Hw r Hr). by rewrite csv_of_dummy_frame. }
  f_equal. rewrite csv_of_dummy_frame. unfold frame_of_csv, dummy_frame.
  cbn [header rows imap]. unfold compose. repeat f_equal.
  - rewrite (map_zip_with_l _ _ id); [apply map_id| |].
    + intros. apply of_to_field.
    + by rewrite length_current, length_voltage.
  - rewrite (map_zip_with_r _ _ id); [apply map_id| |].
    + intros. apply of_to_field.
    + by rewrite length_current, length_voltage.
Qed.

End Reloaded.

(** ** Cleaning the generated dataset *)

Section CleanGenerated.

Context (L : library).
Hypothesis Hdraws : draws_numbers L.

Local Arguments current : simpl never.

Lemma nrows_dummy_frame : nrows (dummy_frame L) = 50.
Proof. apply length_current. Qed.

(** The incomplete rows of the generated frame are rows 5 and 15. *)
Lemma row_complete_dummy_frame i :
  i < 50 → row_complete (dummy_frame L) i = false ↔ i = 5 ∨ i = 15.
Proof.
  intros Hi. unfold row_complete, dummy_frame. cbn [forallb snd].
  destruct (lookup_lt_is_Some_2 current i) as [c Hc];
    [by rewrite length_current|].
  destruct (lookup_lt_is_Some_2 (voltage L) i) as [v Hv];
    [by rewrite length_voltage|].
  rewrite (nth_lookup_Some _ _ _ _ Hc), (nth_lookup_Some _ _ _ _ Hv).
  pose proof current_not_nan as Hcur. rewrite Forall_forall in Hcur.
  rewrite (Hcur c) by (by eapply list_elem_of_lookup_2).
  rewrite <- (voltage_nan_iff L Hdraws i v Hv).
  by destruct (isnan v).
Qed.

Lemma incomplete_rows_dummy_frame : incomplete_rows (dummy_frame L) = 2.
Proof.
  unfold incomplete_rows. rewrite nrows_dummy_frame.
  rewrite (filter_ext_elem _ (λ i, i = 5 ∨ i = 15)); [done|].
  intros i [_ Hi]%elem_of_seq. by apply row_complete_dummy_frame.
Qed.

Lemma isnull_any_dummy_frame : isnull_any (dummy_frame L) = true.
Proof.
  unfold isnull_any, dummy_frame. cbn [existsb snd].
  apply orb_true_iff. right. apply orb_true_iff. left.
  apply existsb_exists. exists nan. split; [|done].
  apply list_elem_of_In, list_elem_of_lookup. exists 5. unfold voltage.
  rewrite list_lookup_insert_ne by done. apply list_lookup_insert_eq.
  rewrite length_zip_with, length_map, length_noise, length_current.
  simpl. lia.
Qed.

(** 48 of the 50 generated rows survive the cleaning. *)
Lemma nrows_clean_dummy_frame : nrows (clean (dummy_frame L)) = 48.
Proof.
  unfold clean. rewrite isnull_any_dummy_frame, nrows_dropna.
  by rewrite nrows_dummy_frame, incomplete_rows_dummy_frame.
Qed.

End CleanGenerated.

(** ** The columns after cleaning *)

Lemma nrows_dropna_flags df :
  nrows (dropna df) = length (filter (λ b, b = true) (dropna_mask df)).
Proof.
  destruct df as [|[n c] df]; [done|].
  change (nrows (dropna ((n, c) :: df)))
    with (length (keep (dropna_mask ((n, c) :: df)) c)).
  apply length_keep. by rewrite length_dropna_mask.
Qed.

(** A rectangular frame without missing values has no incomplete row. *)
Lemma incomplete_rows_none df :
  rect df = true → isnull_any df = false → incomplete_rows df = 0.
Proof.
  intros Hrect Hnone. pose proof (nrows_dropna df) as Hn.
  rewrite dropna_id in Hn by done.
  pose proof (incomplete_rows_le df). lia.
Qed.

Lemma length_clean_mask df : length (clean_mask df) = nrows df.
Proof.
  unfold clean_mask. destruct (isnull_any df).
  - apply length_dropna_mask.
  - apply length_replicate.
Qed.

Lemma keep_replicate_true {A} (a : list A) : keep (replicate (length a) true) a = a.
Proof. induction a as [|x a IH]; [done|]. simpl. by rewrite IH. Qed.

(** Every column of the cleaned frame is the loaded column under one and the
    same mask, and is as long as the cleaned frame. *)
Lemma column_clean df name c :
  rect df = true → column df name = Some c →
  column (clean df) name = Some (keep (clean_mask df) c)
  ∧ length (keep (clean_mask df) c) = nrows (clean df).
Proof.
  intros Hrect Hc.
  pose proof (rect_length df name c Hrect (column_elem_of _ _ _ Hc)) as Hlen.
  unfold clean, clean_mask. destruct (isnull_any df) eqn:Hany.
  - rewrite column_dropna, Hc. split; [done|].
    rewrite nrows_dropna_flags. apply length_keep.
    by rewrite length_dropna_mask.
  - rewrite <- Hlen, keep_replicate_true. by rewrite Hc.
Qed.

(** The cleaned frame has as many rows as the loaded one has complete rows. *)
Lemma nrows_clean df :
  rect df = true → nrows (clean df) = nrows df - incomplete_rows df.
Proof.
  intros Hrect. unfold clean. destruct (isnull_any df) eqn:Hany.
  - apply nrows_dropna.
  - rewrite incomplete_rows_none by done. lia.
Qed.

(** ** The Analyzer against the specification *)

Section Analyzer.

Context (L : library).
Implicit Types (w : world L) (filename : string).

Local Arguments String.append : simpl never.

(** A regular file is read as its frame. *)
Lemma parse_regular f : regular f = true → parse_csv L f = inr (frame_of_csv f).
Proof. unfold parse_csv. by intros ->. Qed.

(** The two columns of a file with the expected header. *)
Lemma columns_of_header f :
  header f = ["Current_A"; "Voltage_V"] →
  ∃ c v, column (frame_of_csv f) "Current_A" = Some c
         ∧ column (frame_of_csv f) "Voltage_V" = Some v.
Proof. unfold frame_of_csv. intros ->. simpl. eauto. Qed.

(** C2: on a path that names no file, the Analyzer prints the error line and
    returns normally; nothing was loaded, computed or drawn, and no file,
    random state or object changed. *)
Theorem analyzer_missing_file w filename :
  files w !! filename = None →
  process_and_analyze L filename w =
    (Ok tt,
     World (files w)
           (stdout w ++ ["Error: File " +:+ filename +:+ " not found."])
           (rng w) (figure w) (heap w)).
Proof. apply process_and_analyze_missing. Qed.

(** C1 (what the code does instead): on every existing regular file with
    header [Current_A,Voltage_V] the Analyzer ends in an exception, having
    drawn at most the figure and the scatter plot, so never [plt.show()];
    when at least one row survives the cleaning the exception is the
    [NameError] of line 85, where the label of the fitted line reads
    [resistance], a local of [create_dummy_data]. *)
Theorem analyzer_stops_before_fit w filename f :
  files w !! filename = Some f →
  regular f = true →
  header f = ["Current_A"; "Voltage_V"] →
  ∃ e w' draws,
    process_and_analyze L filename w = (Raise e, w')
    ∧ figure w' = figure w ++ draws
    ∧ (Show ∉ draws)
    ∧ (∀ x y c ls lb, Plot x y c ls lb ∉ draws)
    ∧ (nrows (clean (frame_of_csv f)) ≠ 0 → e = NameError "resistance").
Proof.
  intros Hfile Hreg Hhead.
  destruct (process_and_analyze_existing L w filename f Hfile)
    as (e & w' & Hrun & _ & _ & _ & (draws & Hfig & Hdraws) & _).
  exists e, w', draws. rewrite forallb_forall in Hdraws.
  split_and!; [done|done| | |].
  - intros Hin%list_elem_of_In%Hdraws. done.
  - intros x y c ls lb Hin%list_elem_of_In%Hdraws. done.
  - intros Hrows.
    destruct (columns_of_header f Hhead) as (c & v & Hc & Hv).
    pose proof (rect_frame_of_csv f) as Hrect.
    destruct (column_clean _ _ _ Hrect Hc) as [Hc' Hlc].
    destruct (column_clean _ _ _ Hrect Hv) as [Hv' Hlv].
    rewrite (process_and_analyze_loaded L w filename f (frame_of_csv f)
               _ _ Hfile (parse_regular f Hreg) Hc' Hv') in Hrun
      by congruence.
    congruence.
Qed.

(** C5: for every rectangular loaded frame the cleaned frame has no missing
    value and as many rows as the loaded one minus its incomplete rows; on
    every run on a regular file with the header [Current_A,Voltage_V] that
    keeps at least one row, the two arrays taken for the statistics are the
    columns of the cleaned frame, they hold no NaN and have its row count,
    and every printed statistic and the scatter plot are computed from them;
    and the generated frame, which the Analyzer reads back from the
    Generator's file, goes from 50 rows to 48 when the library's draws are
    numbers. *)
Theorem analyzer_cleans_before_statistics :
  (∀ raw, rect raw = true →
     isnull_any (clean raw) = false
     ∧ nrows (clean raw) = nrows raw - incomplete_rows raw
     ∧ incomplete_rows raw ≤ nrows raw)
  ∧ (∀ w filename f,
       files w !! filename = Some f →
       regular f = true →
       header f = ["Current_A"; "Voltage_V"] →
       nrows (clean (frame_of_csv f)) ≠ 0 →
       ∃ current voltage,
         column (clean (frame_of_csv f)) "Current_A" = Some current
         ∧ column (clean (frame_of_csv f)) "Voltage_V" = Some voltage
         ∧ length current = nrows (clean (frame_of_csv f))
         ∧ length voltage = nrows (clean (frame_of_csv f))
         ∧ Forall (λ x, isnan x = false) (current ++ voltage)
         ∧ let w' := (process_and_analyze L filename w).2 in
           stdout w' =
             stdout w ++ analysis_report L filename (frame_of_csv f)
                                         current voltage
           ∧ figure w' =
               figure w ++ [ Figure 10 6;
                             Scatter current voltage "blue" "Experimental Data"
                                     0.7 ])
  ∧ (draws_numbers L →
       parse_csv L (csv_of_frame (dummy_frame L)) = inr (dummy_frame L)
       ∧ nrows (dummy_frame L) = 50
       ∧ incomplete_rows (dummy_frame L) = 2
       ∧ nrows (clean (dummy_frame L)) = 48).
Proof.
  split_and!.
  - intros raw Hrect. split_and!.
    + apply isnull_any_clean.
    + by apply nrows_clean.
    + apply incomplete_rows_le.
  - intros w filename f Hfile Hreg Hhead Hrows.
    destruct (columns_of_header f Hhead) as (c & v & Hc & Hv).
    pose proof (rect_frame_of_csv f) as Hrect.
    destruct (column_clean _ _ _ Hrect Hc) as [Hc' Hlc].
    destruct (column_clean _ _ _ Hrect Hv) as [Hv' Hlv].
    eexists _, _. split_and!; [exact Hc'|exact Hv'|exact Hlc|exact Hlv| |].
    + apply Forall_app. split.
      * exact (column_no_nan _ _ _ (isnull_any_clean _) Hc').
      * exact (column_no_nan _ _ _ (isnull_any_clean _) Hv').
    + by rewrite (process_and_analyze_loaded L w filename f (frame_of_csv f)
                    _ _ Hfile (parse_regular f Hreg) Hc' Hv') by congruence.
  - intros Hdraws. split_and!.
    + apply parse_dummy_frame.
    + apply nrows_dummy_frame.
    + by apply incomplete_rows_dummy_frame.
    + by apply nrows_clean_dummy_frame.
Qed.

(** C6: when the loaded frame has no missing value the cleaning step keeps
    the very same frame object (no copy is made), so the raw and the cleaned
    shape the Analyzer prints are one shape; [dropna] itself would drop
    nothing from such a frame, and cleaning a cleaned frame changes nothing. *)
Theorem analyzer_keeps_clean_data w filename f raw :
  files w !! filename = Some f →
  parse_csv L f = inr raw →
  isnull_any raw = false →
  clean raw = raw
  ∧ nrows (clean raw) = nrows raw
  ∧ (rect raw = true → dropna raw = raw)
  ∧ clean (clean raw) = clean raw
  ∧ ∃ e w',
      process_and_analyze L filename w = (Raise e, w')
      ∧ heap w' = heap w ++ [raw]
      ∧ (stdout w ++ [ "Loading data from " +:+ filename +:+ "...";
                       "Raw data shape: " +:+ show_shape (shape raw);
                       "Cleaned data shape: " +:+ show_shape (shape raw) ])
          `prefix_of` stdout w'.
Proof.
  intros Hfile Hparse Hnone.
  assert (clean raw = raw) as Hclean by (unfold clean; by rewrite Hnone).
  split_and!.
  - done.
  - by rewrite Hclean.
  - intros Hrect. by apply dropna_id.
  - by rewrite !Hclean.
  - destruct (process_and_analyze_existing L w filename f Hfile)
      as (e & w' & Hrun & _ & _ & _ & _ & (objs & Hheap & Hobjs) & Hshape).
    exists e, w'. split_and!; [done| |].
    + rewrite Hheap, (Hobjs raw Hparse). unfold analysis_objects.
      by rewrite Hnone.
    + specialize (Hshape raw Hparse). unfold shape_report in Hshape.
      by rewrite Hnone, Hclean in Hshape.
Qed.

(** C8: whatever the world and the path, a run of the Analyzer leaves every
    file as it was and every frame object that existed as it was; the frame
    it loads is still the loaded frame when the run ends, the cleaned rows
    being a second object allocated after it. *)
Theorem analyzer_mutates_nothing w filename :
  let w' := (process_and_analyze L filename w).2 in
  files w' = files w
  ∧ (∀ r df, heap w !! r = Some df → heap w' !! r = Some df)
  ∧ (∀ f raw, files w !! filename = Some f → parse_csv L f = inr raw →
       heap w' !! length (heap w) = Some raw
       ∧ (isnull_any raw = true →
            heap w' !! S (length (heap w)) = Some (dropna raw))).
Proof.
  destruct (files w !! filename) as [f|] eqn:Hfile.
  - destruct (process_and_analyze_existing L w filename f Hfile)
      as (e & w' & Hrun & Hfiles & _ & _ & _ & (objs & Hheap & Hobjs) & _).
    rewrite Hrun. cbn [snd]. split_and!; [done| |].
    + intros r df Hr. rewrite Hheap. by apply lookup_app_l_Some.
    + intros f' raw [= <-] Hparse. rewrite Hheap, (Hobjs raw Hparse).
      unfold analysis_objects. split.
      * apply list_lookup_middle. done.
      * intros ->. rewrite lookup_app_r by lia.
        by replace (S (length (heap w)) - length (heap w)) with 1 by lia.
  - rewrite (process_and_analyze_missing L w filename Hfile). cbn [snd].
    split_and!; [done|done|]. intros f raw Hf. congruence.
Qed.

(** C10: cleaning a rectangular frame keeps the current and the voltage
    arrays equally long, keeps the surviving (current, voltage) pairs in
    their original order, and pairs each surviving current with the voltage
    that stood in its row. *)
Theorem cleaning_keeps_rows_aligned (raw : DataFrame) (current voltage : ndarray) :
  rect raw = true →
  column raw "Current_A" = Some current →
  column raw "Voltage_V" = Some voltage →
  ∃ current' voltage',
    column (clean raw) "Current_A" = Some current'
    ∧ column (clean raw) "Voltage_V" = Some voltage'
    ∧ length current' = length voltage'
    ∧ length current' = nrows (clean raw)
    ∧ zip current' voltage' = keep (clean_mask raw) (zip current voltage)
    ∧ zip current' voltage' `sublist_of` zip current voltage
    ∧ ∀ j c v, current' !! j = Some c → voltage' !! j = Some v →
        ∃ i, current !! i = Some c ∧ voltage !! i = Some v.
Proof.
  intros Hrect Hc Hv.
  destruct (column_clean _ _ _ Hrect Hc) as [Hc' Hlc].
  destruct (column_clean _ _ _ Hrect Hv) as [Hv' Hlv].
  exists (keep (clean_mask raw) current), (keep (clean_mask raw) voltage).
  assert (zip (keep (clean_mask raw) current) (keep (clean_mask raw) voltage)
          `sublist_of` zip current voltage) as Hsub
    by (rewrite <- keep_zip; apply keep_sublist).
  split_and!; try done.
  - congruence.
  - by rewrite keep_zip.
  - intros j c v Hj Hj'.
    assert ((c, v) ∈ zip current voltage) as Hin.
    { eapply elem_of_sublist; [|done].
      apply list_elem_of_lookup. exists j. by apply lookup_zip_Some. }
    apply list_elem_of_lookup in Hin as [i Hi]. exists i.
    by apply lookup_zip_Some in Hi.
Qed.

End Analyzer.

(** ** The script run from a fresh directory *)

Section Script.

Context (L : library).
Hypothesis Hdraws : draws_numbers L.

Local Arguments String.append : simpl never.
Local Arguments current : simpl never.

Lemma rect_dummy_frame : rect (dummy_frame L) = true.
Proof.
  unfold rect, dummy_frame. cbn [forallb nrows snd].
  by rewrite length_voltage, length_current.
Qed.

(** X13: run where [experiment_data.csv] does not exist and can be written,
    with draws that are numbers, the script generates the file, loads the
    generated frame back, prints the statistics of the 48 complete rows,
    draws their scatter plot and stops at line 85 with [NameError]. *)
Lemma main_fresh (w : world L) :
  files w !! "experiment_data.csv" = None →
  write_error L (files w) "experiment_data.csv" = None →
  ∃ current' voltage',
    column (clean (dummy_frame L)) "Current_A" = Some current'
    ∧ column (clean (dummy_frame L)) "Voltage_V" = Some voltage'
    ∧ length current' = 48 ∧ length voltage' = 48
    ∧ main L w =
        (Raise (NameError "resistance"),
         World (<["experiment_data.csv" := csv_of_frame (dummy_frame L)]> (files w))
               (stdout w
                  ++ ["Created dummy dataset: experiment_data.csv"]
                  ++ analysis_report L "experiment_data.csv" (dummy_frame L)
                       current' voltage')
               (normal L 0 2.5 50 (seed_state L 42)).2
               (figure w ++ [ Figure 10 6;
                              Scatter current' voltage' "blue"
                                      "Experimental Data" 0.7 ])
               (heap w ++ [dummy_frame L; dummy_frame L;
                           dropna (dummy_frame L)])).
Proof.
  intros Hfile Hwrite.
  destruct (column_clean (dummy_frame L) "Current_A" current rect_dummy_frame)
    as [Hc Hlc]; [done|].
  destruct (column_clean (dummy_frame L) "Voltage_V" (voltage L) rect_dummy_frame)
    as [Hv Hlv]; [done|].
  rewrite (nrows_clean_dummy_frame L Hdraws) in Hlc, Hlv.
  do 2 eexists. split_and!; [exact Hc|exact Hv|exact Hlc|exact Hlv|].
  unfold main. cbv [bind os_path_exists].
  rewrite Hfile, bool_decide_false by (by intros [? ?]). cbn [negb].
  rewrite create_dummy_data_run by done.
  erewrite process_and_analyze_loaded;
    [|apply lookup_insert_eq|apply parse_dummy_frame|exact Hc|exact Hv
     |congruence|lia].
  cbn [files stdout rng figure heap]. unfold analysis_objects.
  rewrite (isnull_any_dummy_frame L). by rewrite <- !app_assoc.
Qed.

End Script.

(** ** The statements on the reference instance *)

Lemma demo_draws_numbers : draws_numbers Demo.lib.
Proof.
  intros n. unfold Demo.lib, gauss, Demo.gauss. cbn [fst].
  pose proof (Nat.mod_upper_bound (n * 5) 7) as Hlt.
  destruct (n * 5 mod 7) as [|[|[|[|[|[|[|k]]]]]]]; try reflexivity. lia.
Qed.

(** What the script prints when run from a fresh directory on the reference
    instance, and how it ends. *)
Example demo_main :
  let r := main Demo.lib Demo.w0 in
  r.1 = Raise (NameError "resistance")
  ∧ take 5 (stdout r.2) =
      [ "Created dummy dataset: experiment_data.csv";
        "Loading data from experiment_data.csv...";
        "Raw data shape: (50, 2)";
        "Missing values detected. Dropping incomplete rows...";
        "Cleaned data shape: (48, 2)" ]
  ∧ length (figure r.2) = 2
  ∧ length (heap r.2) = 3.
Proof. vm_compute. done. Qed.

(** The same end on the three-row file with a gap. *)
Example demo_gapped :
  let r := process_and_analyze Demo.lib "gapped.csv" Demo.w2 in
  r.1 = Raise (NameError "resistance")
  ∧ heap r.2 = [Demo.gapped; [("Current_A", [1; 3]%float);
                              ("Voltage_V", [5; 15]%float)]]
  ∧ files r.2 = files Demo.w2.
Proof. vm_compute. done. Qed.

Lemma analyzer_missing_file_witness :
  files Demo.w0 !! "experiment_data.csv" = None
  ∧ process_and_analyze Demo.lib "experiment_data.csv" Demo.w0 =
      (Ok tt,
       @World Demo.lib ∅ ["Error: File experiment_data.csv not found."] 0 [] []).
Proof.
  split; [reflexivity|].
  apply (analyzer_missing_file Demo.lib Demo.w0 "experiment_data.csv").
  reflexivity.
Defined.

Lemma analyzer_stops_before_fit_witness :
  ∃ w' draws,
    process_and_analyze Demo.lib "experiment_data.csv" Demo.w1
      = (Raise (NameError "resistance"), w')
    ∧ figure w' = draws ∧ Show ∉ draws.
Proof.
  destruct (analyzer_stops_before_fit Demo.lib Demo.w1 "experiment_data.csv"
              (csv_of_frame (dummy_frame Demo.lib)))
    as (e & w' & draws & Hrun & Hfig & Hshow & _ & Hname).
  - vm_compute. reflexivity.
  - vm_compute. reflexivity.
  - vm_compute. reflexivity.
  - exists w', draws. rewrite Hname in Hrun by (vm_compute; lia).
    split_and!; done.
Defined.

Lemma generator_missing_values_witness :
  draws_numbers Demo.lib
  ∧ write_error Demo.lib (files Demo.w0) "experiment_data.csv" = None
  ∧ ∃ file cs vs,
      files Demo.w1 !! "experiment_data.csv" = Some file
      ∧ csv_column file "Current_A" = Some cs
      ∧ csv_column file "Voltage_V" = Some vs
      ∧ length cs = 50 ∧ length vs = 50
      ∧ Forall (λ c, c ≠ None) cs
      ∧ ∀ i, vs !! i = Some None ↔ i = 5 ∨ i = 15.
Proof.
  split; [exact demo_draws_numbers|]. split; [reflexivity|].
  exact (generator_missing_values Demo.lib demo_draws_numbers Demo.w0
           "experiment_data.csv" eq_refl).
Defined.

Lemma analyzer_cleans_before_statistics_witness :
  nrows (clean Demo.gapped) = 3 - 1
  ∧ nrows (clean (dummy_frame Demo.lib)) = 48
  ∧ stdout (process_and_analyze Demo.lib "gapped.csv" Demo.w2).2
    = [ "Loading data from gapped.csv...";
        "Raw data shape: (3, 2)";
        "Missing values detected. Dropping incomplete rows...";
        "Cleaned data shape: (2, 2)";
        newline +:+ "--- Statistical Analysis ---";
        "Voltage Mean: 10.00 V";
        "Voltage Variance: 25.00 V^2";
        "Voltage Std Dev: 5.00 V";
        "Correlation (Current vs Voltage): 1.0000" ]
  ∧ figure (process_and_analyze Demo.lib "gapped.csv" Demo.w2).2
    = [ Figure 10 6;
        Scatter [1; 3]%float [5; 15]%float "blue" "Experimental Data" 0.7 ].
Proof.
  destruct (analyzer_cleans_before_statistics Demo.lib)
    as (Hclean & Hrun & Hgen).
  destruct (Hclean Demo.gapped) as (_ & Hrows & _); [reflexivity|].
  destruct (Hgen demo_draws_numbers) as (_ & _ & _ & H48).
  destruct (Hrun Demo.w2 "gapped.csv" (csv_of_frame Demo.gapped))
    as (c & v & Hc & Hv & _ & _ & _ & Hout & Hfig).
  - vm_compute. reflexivity.
  - vm_compute. reflexivity.
  - vm_compute. reflexivity.
  - vm_compute. lia.
  - vm_compute in Hc. vm_compute in Hv.
    injection Hc as <-. injection Hv as <-.
    split_and!; [exact Hrows|exact H48| |].
    + rewrite Hout. vm_compute. reflexivity.
    + rewrite Hfig. vm_compute. reflexivity.
Defined.

Lemma analyzer_keeps_clean_data_witness :
  files Demo.w2 !! "complete.csv" = Some (csv_of_frame Demo.complete)
  ∧ parse_csv Demo.lib (csv_of_frame Demo.complete) = inr Demo.complete
  ∧ isnull_any Demo.complete = false
  ∧ nrows (clean Demo.complete) = nrows Demo.complete.
Proof.
  assert (files Demo.w2 !! "complete.csv" = Some (csv_of_frame Demo.complete))
    as Hfile by (vm_compute; reflexivity).
  assert (parse_csv Demo.lib (csv_of_frame Demo.complete) = inr Demo.complete)
    as Hparse by (vm_compute; reflexivity).
  assert (isnull_any Demo.complete = false) as Hnone by reflexivity.
  split_and!; [exact Hfile|exact Hparse|exact Hnone|].
  exact (proj1 (proj2 (analyzer_keeps_clean_data Demo.lib Demo.w2 "complete.csv"
                         _ _ Hfile Hparse Hnone))).
Defined.

Lemma cleaning_keeps_rows_aligned_witness :
  rect Demo.gapped = true
  ∧ ∃ current' voltage',
      column (clean Demo.gapped) "Current_A" = Some current'
      ∧ column (clean Demo.gapped) "Voltage_V" = Some voltage'
      ∧ length current' = length voltage'
      ∧ zip current' voltage' `sublist_of` [(1, 5); (2, nan); (3, 15)]%float.
Proof.
  split; [reflexivity|].
  destruct (cleaning_keeps_rows_aligned Demo.gapped [1; 2; 3]%float
              [5; nan; 15]%float)
    as (c & v & Hc & Hv & Hlen & _ & _ & Hsub & _); try reflexivity.
  exists c, v. split_and!; done.
Defined.


Lemma create_dummy_data_deterministic_witness :
  (create_dummy_data Demo.lib "experiment_data.csv" Demo.w0).1
    = Ok "experiment_data.csv"
  ∧ (create_dummy_data Demo.lib "experiment_data.csv" Demo.w1).1
    = Ok "experiment_data.csv"
  ∧ rng Demo.w0 ≠ rng Demo.w1
  ∧ files (create_dummy_data Demo.lib "experiment_data.csv" Demo.w0).2
      !! "experiment_data.csv"
    = files (create_dummy_data Demo.lib "experiment_data.csv" Demo.w1).2
        !! "experiment_data.csv"
  ∧ rng (create_dummy_data Demo.lib "experiment_data.csv" Demo.w0).2
    = rng (create_dummy_data Demo.lib "experiment_data.csv" Demo.w1).2.
Proof.
  assert ((create_dummy_data Demo.lib "experiment_data.csv" Demo.w0).1
          = Ok "experiment_data.csv") as H0 by (vm_compute; reflexivity).
  assert ((create_dummy_data Demo.lib "experiment_data.csv" Demo.w1).1
          = Ok "experiment_data.csv") as H1 by (vm_compute; reflexivity).
  destruct (create_dummy_data_deterministic Demo.lib Demo.w0 Demo.w1
              "experiment_data.csv" H0 H1) as (_ & Hfiles & Hrng).
  split_and!; [exact H0|exact H1| |exact Hfiles|exact Hrng].
  vm_compute. discriminate.
Defined.


(** So does its "for every output path": in a directory that does not exist
    the write of line 26 is refused and no file appears. *)
Lemma generator_claim_unwritable :
  ¬ generator_claim Demo.lib Demo.w0 "no_such_dir/x.csv".
Proof.
  intros (file & Hfile & _).
  rewrite (create_dummy_data_refused Demo.lib Demo.w0 "no_such_dir/x.csv"
             (OSError "Cannot save file into a non-existent directory"))
    in Hfile by reflexivity.
  vm_compute in Hfile. discriminate.
Qed.

(** ** Further properties: the [__main__] block and the Generator's footprint *)

Section MainBlock.

Context (L : library).
Implicit Types (w : world L).

Local Arguments String.append : simpl never.
Local Arguments current : simpl never.

(** The guard of line 100: with the file in place the Generator is skipped. *)
Lemma main_existing w f :
  files w !! "experiment_data.csv" = Some f →
  main L w = process_and_analyze L "experiment_data.csv" w.
Proof.
  intros Hfile. unfold main. cbv [bind os_path_exists ret].
  by rewrite Hfile, bool_decide_true by eauto.
Qed.

(** Without the file the Generator runs first: where its write is refused
    the exception ends the script, otherwise the Analyzer runs in the world
    the Generator leaves. *)
Lemma main_missing_refused w e :
  files w !! "experiment_data.csv" = None →
  write_error L (files w) "experiment_data.csv" = Some e →
  main L w =
    (Raise e,
     World (files w) (stdout w) (normal L 0 2.5 50 (seed_state L 42)).2
           (figure w) (heap w ++ [dummy_frame L])).
Proof.
  intros Hfile Hwrite. unfold main. cbv [bind os_path_exists].
  rewrite Hfile, bool_decide_false by (by intros [? ?]). cbn [negb].
  by rewrite (create_dummy_data_refused L w _ e).
Qed.

Lemma main_missing_written w :
  files w !! "experiment_data.csv" = None →
  write_error L (files w) "experiment_data.csv" = None →
  main L w =
    process_and_analyze L "experiment_data.csv"
      (World (<["experiment_data.csv" := csv_of_frame (dummy_frame L)]> (files w))
             (stdout w ++ ["Created dummy dataset: experiment_data.csv"])
             (normal L 0 2.5 50 (seed_state L 42)).2
             (figure w)
             (heap w ++ [dummy_frame L])).
Proof.
  intros Hfile Hwrite. unfold main. cbv [bind os_path_exists].
  rewrite Hfile, bool_decide_false by (by intros [? ?]). cbn [negb].
  by rewrite create_dummy_data_run.
Qed.

(** How the [__main__] block ends and what it does to the files: an
    exception in every case, no [plt.show()], and either no file changes (the
    data file existed, or could not be written) or the generated file is
    added. *)
Lemma main_outcome w :
  ∃ e w',
    main L w = (Raise e, w')
    ∧ (Show ∈ figure w' → Show ∈ figure w)
    ∧ (is_Some (files w !! "experiment_data.csv")
       ∨ is_Some (write_error L (files w) "experiment_data.csv") →
         files w' = files w)
    ∧ (is_Some (files w !! "experiment_data.csv") → rng w' = rng w)
    ∧ (files w !! "experiment_data.csv" = None →
       write_error L (files w) "experiment_data.csv" = None →
         files w' =
           <["experiment_data.csv" := csv_of_frame (dummy_frame L)]> (files w)).
Proof.
  destruct (files w !! "experiment_data.csv") as [f|] eqn:Hfile.
  - rewrite (main_existing w f Hfile).
    destruct (process_and_analyze_existing L w _ f Hfile)
      as (e & w' & Hrun & Hfiles & Hrng & _ & (draws & Hfig & Hdraws) & _).
    exists e, w'. split_and!; try done.
    rewrite Hfig. rewrite forallb_forall in Hdraws.
    intros [?|Hin%list_elem_of_In%Hdraws]%elem_of_app; done.
  - destruct (write_error L (files w) "experiment_data.csv") as [e|] eqn:Hwrite.
    + rewrite (main_missing_refused w e Hfile Hwrite).
      do 2 eexists. split; [reflexivity|]. cbn [files figure rng].
      split_and!; try done; by intros [? ?].
    + rewrite (main_missing_written w Hfile Hwrite).
      edestruct (process_and_analyze_existing L)
        as (e & w' & Hrun & Hfiles & _ & _ & (draws & Hfig & Hdraws) & _);
        [|rewrite Hrun].
      { cbn [files]. apply lookup_insert_eq. }
      exists e, w'. cbn [files figure] in *.
      split_and!; try done; try (by intros [? ?]); try (by intros [[? ?]|[? ?]]).
      rewrite Hfig. rewrite forallb_forall in Hdraws.
      intros [?|Hin%list_elem_of_In%Hdraws]%elem_of_app; done.
Qed.

(** X1: from every world, the [__main__] block ends in an uncaught
    exception: it never returns normally and never reaches [plt.show()]; and
    where [experiment_data.csv] can be opened for writing, the file exists
    when the block ends. *)
Theorem main_never_completes w :
  ∃ e w',
    main L w = (Raise e, w')
    ∧ (Show ∈ figure w' → Show ∈ figure w)
    ∧ (write_error L (files w) "experiment_data.csv" = None →
         is_Some (files w' !! "experiment_data.csv")).
Proof.
  destruct (main_outcome w)
    as (e & w' & Hrun & Hshow & Hsame & _ & Hnew).
  exists e, w'. split_and!; [done|done|]. intros Hwrite.
  destruct (files w !! "experiment_data.csv") as [f|] eqn:Hfile.
  - rewrite Hsame, Hfile by eauto. eauto.
  - rewrite (Hnew eq_refl Hwrite), lookup_insert_eq. eauto.
Qed.

(** X2: when [experiment_data.csv] already exists, the [__main__] block is
    the Analyzer alone: the Generator is not called, so the file is not
    overwritten, no file changes and the random state is not reseeded. *)
Theorem main_keeps_existing_file w f :
  files w !! "experiment_data.csv" = Some f →
  main L w = process_and_analyze L "experiment_data.csv" w
  ∧ files (main L w).2 = files w
  ∧ files (main L w).2 !! "experiment_data.csv" = Some f
  ∧ rng (main L w).2 = rng w.
Proof.
  intros Hfile. rewrite (main_existing w f Hfile).
  destruct (process_and_analyze_existing L w _ f Hfile)
    as (e & w' & Hrun & Hfiles & Hrng & _).
  rewrite Hrun. cbn [snd]. by rewrite Hfiles.
Qed.

(** X3: running the [__main__] block a second time changes no file: the
    first run leaves [experiment_data.csv] in place, so the second one does
    not generate again. *)
Theorem main_twice_keeps_files w :
  files (main L (main L w).2).2 = files (main L w).2.
Proof.
  destruct (main_outcome w) as (e & w' & Hrun & _ & Hsame & _ & Hnew).
  rewrite Hrun. cbn [snd].
  destruct (main_outcome w') as (e2 & w2 & Hrun2 & _ & Hsame2 & _ & _).
  rewrite Hrun2. cbn [snd]. apply Hsame2.
  destruct (files w !! "experiment_data.csv") as [f|] eqn:Hfile.
  - left. rewrite Hsame, Hfile by eauto. eauto.
  - destruct (write_error L (files w) "experiment_data.csv") as [e0|] eqn:Hwrite.
    + right. rewrite Hsame, Hwrite by eauto. eauto.
    + left. rewrite (Hnew eq_refl eq_refl), lookup_insert_eq. eauto.
Qed.

(** X4: in every world and for every path the Generator draws nothing,
    allocates one frame and leaves the random state a function of the seed
    alone; the only step of it that can raise is the write (the length,
    index and frame checks before it all pass): where the path can be opened
    for writing the call returns the path, the file at the path holds the
    generated frame, whatever was there, and one line is printed; where the
    write is refused the call ends in that exception with no file changed
    and nothing printed. *)
Theorem create_dummy_data_footprint w filename :
  let r := create_dummy_data L filename w in
  figure r.2 = figure w
  ∧ heap r.2 = heap w ++ [dummy_frame L]
  ∧ rng r.2 = (normal L 0 2.5 50 (seed_state L 42)).2
  ∧ (write_error L (files w) filename = None →
       r.1 = Ok filename
       ∧ files r.2 !! filename = Some (csv_of_frame (dummy_frame L))
       ∧ stdout r.2 = stdout w ++ ["Created dummy dataset: " +:+ filename])
  ∧ (∀ e, write_error L (files w) filename = Some e →
       r.1 = Raise e ∧ files r.2 = files w ∧ stdout r.2 = stdout w).
Proof.
  rewrite create_dummy_data_cases.
  destruct (write_error L (files w) filename) as [e|];
    cbn [fst snd files stdout figure heap rng]; split_and!; try done.
  - by intros ? [= <-].
  - intros _. split_and!; try done. apply lookup_insert_eq.
Qed.

(** X5: the Analyzer never seeds or draws and never takes back what was
    printed: after every run the random state is the one before and the
    console starts with what it held. *)
Theorem analyzer_leaves_random_state w filename :
  let w' := (process_and_analyze L filename w).2 in
  rng w' = rng w ∧ stdout w `prefix_of` stdout w'.
Proof.
  destruct (files w !! filename) as [f|] eqn:Hfile.
  - destruct (process_and_analyze_existing L w filename f Hfile)
      as (e & w' & Hrun & _ & Hrng & Hout & _).
    by rewrite Hrun.
  - rewrite (process_and_analyze_missing L w filename Hfile). cbn [snd].
    split; [done|]. by apply prefix_app_r.
Qed.

End MainBlock.

(** ** Further properties: the Analyzer's error paths *)

Section ErrorPaths.

Context (L : library).
Implicit Types (w : world L) (filename : string).

Local Arguments String.append : simpl never.
Local Arguments parse_csv : simpl never.
Local Arguments column : simpl never.
Local Arguments isnull_any : simpl never.
Local Arguments dropna : simpl never.
Local Arguments show_shape : simpl never.
Local Arguments read_dtype : simpl never.

Local Ltac exec :=
  cbv [bind print deref df_dropna alloc df_values ret raise plt
       np_corrcoef np_polyfit os_path_exists read_csv];
  simpl.

Lemma column_clean_None raw name :
  column raw name = None → column (clean raw) name = None.
Proof.
  intros Hnone. unfold clean. destruct (isnull_any raw); [|done].
  by rewrite column_dropna, Hnone.
Qed.

Lemma column_clean_Some raw name c :
  column raw name = Some c → is_Some (column (clean raw) name).
Proof.
  intros Hc. unfold clean. destruct (isnull_any raw); [|by rewrite Hc].
  rewrite column_dropna, Hc. by eexists.
Qed.

(** X6: an exception of [pd.read_csv] is not caught: the Analyzer ends in
    that exception right after the loading line, with nothing drawn and no
    frame allocated. *)
Theorem analyzer_propagates_read_error w filename f e :
  files w !! filename = Some f →
  parse_csv L f = inl e →
  process_and_analyze L filename w =
    (Raise e,
     World (files w)
           (stdout w ++ ["Loading data from " +:+ filename +:+ "..."])
           (rng w) (figure w) (heap w)).
Proof.
  intros Hfile Hparse. unfold process_and_analyze.
  rewrite load_global_resistance. exec.
  rewrite Hfile, bool_decide_true by eauto. simpl.
  by rewrite Hfile, Hparse.
Qed.

(** X7: a file that loads but lacks the column [Current_A], or has it and
    lacks [Voltage_V], makes the Analyzer end in [KeyError] on the first
    column that is missing, after the shape lines and the cleaning and before
    any statistic is printed or anything is drawn. *)
Theorem analyzer_missing_column w filename f raw :
  files w !! filename = Some f →
  parse_csv L f = inr raw →
  column raw "Current_A" = None ∨ column raw "Voltage_V" = None →
  process_and_analyze L filename w =
    (Raise (KeyError (match column raw "Current_A" with
                      | Some _ => "Voltage_V"
                      | None => "Current_A"
                      end)),
     World (files w) (stdout w ++ shape_report filename raw) (rng w)
           (figure w) (heap w ++ analysis_objects raw)).
Proof.
  intros Hfile Hparse Hmiss. unfold process_and_analyze.
  rewrite load_global_resistance. exec.
  rewrite Hfile, bool_decide_true by eauto. simpl.
  rewrite Hfile, Hparse. simpl. rewrite !heap_lookup_new. simpl.
  assert (∀ name, column raw name = None → column (clean raw) name = None)
    as HNone by (intros; by apply column_clean_None).
  assert (∀ name c, column raw name = Some c → is_Some (column (clean raw) name))
    as HSome by (intros; by eapply column_clean_Some).
  unfold shape_report, analysis_objects, clean in *.
  destruct (isnull_any raw) eqn:Hany; simpl; rewrite ?heap_lookup_new; simpl.
  - destruct (column raw "Current_A") as [c|] eqn:Hc.
    + destruct Hmiss as [?|Hv]; [done|].
      destruct (HSome _ _ Hc) as [c' ->]. simpl.
      rewrite ?heap_lookup_new. simpl. rewrite (HNone _ Hv). simpl.
      by rewrite <- !app_assoc.
    + rewrite (HNone _ Hc). simpl. by rewrite <- !app_assoc.
  - destruct (column raw "Current_A") as [c|] eqn:Hc.
    + destruct Hmiss as [?|Hv]; [done|]. simpl.
      rewrite ?heap_lookup_new. simpl. rewrite Hv. simpl.
      by rewrite <- !app_assoc.
    + simpl. by rewrite <- !app_assoc.
Qed.

(** X8: when the file has at least one data row and cleaning leaves none
    (every row has a missing field), the Analyzer still prints the statistics
    of the empty numeric arrays and draws the empty scatter plot, then ends in
    the [TypeError] that [np.polyfit] raises on an empty vector; line 85 is
    not reached.  (A file with no data row at all is read with columns of
    dtype object and stops earlier, at the first [np.mean].) *)
Theorem analyzer_empty_after_cleaning w filename f raw c v :
  files w !! filename = Some f →
  parse_csv L f = inr raw →
  rect raw = true →
  column raw "Current_A" = Some c →
  column raw "Voltage_V" = Some v →
  nrows raw ≠ 0 →
  nrows (clean raw) = 0 →
  process_and_analyze L filename w =
    (Raise (TypeError "expected non-empty vector for x"),
     World (files w)
           (stdout w ++ analysis_report L filename raw [] [])
           (rng w)
           (figure w ++ [ Figure 10 6;
                          Scatter [] [] "blue" "Experimental Data" 0.7 ])
           (heap w ++ analysis_objects raw)).
Proof.
  intros Hfile Hparse Hrect Hc Hv Hraw Hrows.
  destruct (column_clean _ _ _ Hrect Hc) as [Hc' Hlc].
  destruct (column_clean _ _ _ Hrect Hv) as [Hv' Hlv].
  rewrite Hrows in Hlc, Hlv.
  apply nil_length_inv in Hlc, Hlv. rewrite Hlc in Hc'. rewrite Hlv in Hv'.
  clear Hlc Hlv Hc Hv Hrows.
  unfold process_and_analyze. rewrite load_global_resistance. exec.
  rewrite Hfile, bool_decide_true by eauto. simpl.
  rewrite Hfile, Hparse. simpl. rewrite !heap_lookup_new. simpl.
  rewrite (read_dtype_rows raw Hraw).
  unfold analysis_report, shape_report, analysis_objects, clean in *.
  destruct (isnull_any raw) eqn:Hany; simpl;
    rewrite ?heap_lookup_new; simpl; rewrite Hc'; simpl;
    rewrite ?heap_lookup_new; simpl; rewrite Hv'; simpl;
    by rewrite <- !app_assoc.
Qed.

(** The other empty case: a file with the header and no data row is read
    with columns of dtype object, and the Analyzer ends in
    [ZeroDivisionError] at the first [np.mean] (line 59), after the shape
    lines and the heading of the statistics, before any statistic is printed
    or anything is drawn. *)
Theorem analyzer_header_only w filename f raw c v :
  files w !! filename = Some f →
  parse_csv L f = inr raw →
  rect raw = true →
  column raw "Current_A" = Some c →
  column raw "Voltage_V" = Some v →
  nrows raw = 0 →
  process_and_analyze L filename w =
    (Raise ZeroDivisionError,
     World (files w)
           (stdout w ++ shape_report filename raw
                     ++ [newline +:+ "--- Statistical Analysis ---"])
           (rng w) (figure w) (heap w ++ analysis_objects raw)).
Proof.
  intros Hfile Hparse Hrect Hc Hv Hraw.
  destruct (column_clean _ _ _ Hrect Hc) as [Hc' Hlc].
  destruct (column_clean _ _ _ Hrect Hv) as [Hv' Hlv].
  assert (nrows (clean raw) = 0) as Hrows
    by (pose proof (nrows_clean raw Hrect); lia).
  rewrite Hrows in Hlc, Hlv.
  apply nil_length_inv in Hlc, Hlv. rewrite Hlc in Hc'. rewrite Hlv in Hv'.
  clear Hlc Hlv Hc Hv Hrows.
  unfold process_and_analyze. rewrite load_global_resistance. exec.
  rewrite Hfile, bool_decide_true by eauto. simpl.
  rewrite Hfile, Hparse. simpl. rewrite !heap_lookup_new. simpl.
  unfold read_dtype. rewrite bool_decide_true by done.
  unfold shape_report, analysis_objects, clean in *.
  destruct (isnull_any raw) eqn:Hany; simpl;
    rewrite ?heap_lookup_new; simpl; rewrite Hc'; simpl;
    rewrite ?heap_lookup_new; simpl; rewrite Hv'; simpl;
    by rewrite <- !app_assoc.
Qed.

(** X9: whenever the file loads, and however the run ends, the Analyzer has
    printed the loading line, the raw shape, the notice about missing values
    exactly when some value is missing, and the cleaned shape, in this
    order. *)
Theorem analyzer_reports_shapes w filename f raw :
  files w !! filename = Some f →
  parse_csv L f = inr raw →
  ∃ rest,
    stdout (process_and_analyze L filename w).2
    = stdout w
      ++ [ "Loading data from " +:+ filename +:+ "...";
           "Raw data shape: " +:+ show_shape (shape raw) ]
      ++ (if isnull_any raw
          then ["Missing values detected. Dropping incomplete rows..."]
          else [])
      ++ [ "Cleaned data shape: " +:+ show_shape (shape (clean raw)) ]
      ++ rest.
Proof.
  intros Hfile Hparse.
  destruct (process_and_analyze_existing L w filename f Hfile)
    as (e & w' & Hrun & _ & _ & _ & _ & _ & Hshape).
  destruct (Hshape raw Hparse) as [rest Hrest]. exists rest.
  rewrite Hrun. cbn [snd]. rewrite Hrest. unfold shape_report.
  by rewrite <- !app_assoc.
Qed.

End ErrorPaths.

(** ** Further properties: what cleaning keeps *)

Lemma rect_dropna df : rect df = true → rect (dropna df) = true.
Proof.
  intros Hrect. unfold rect. apply forallb_forall.
  intros [n c'] Hin. apply bool_decide_eq_true. simpl.
  unfold dropna in Hin. apply in_map_iff in Hin as ([n0 c] & [= <- <-] & Hin).
  rewrite nrows_dropna_flags. apply length_keep.
  rewrite length_dropna_mask. apply (rect_length df n0); [done|].
  by apply list_elem_of_In.
Qed.

Lemma rect_clean df : rect df = true → rect (clean df) = true.
Proof.
  intros Hrect. unfold clean. destruct (isnull_any df); [|done].
  by apply rect_dropna.
Qed.

(** X10: the cleaning step keeps a rectangular frame rectangular, keeps its
    column names and their order, never adds a row, and is idempotent: the
    cleaned frame has nothing left for [dropna] to drop. *)
Theorem clean_invariants (df : DataFrame) :
  rect df = true →
  rect (clean df) = true
  ∧ map fst (clean df) = map fst df
  ∧ nrows (clean df) ≤ nrows df
  ∧ dropna (clean df) = clean df
  ∧ clean (clean df) = clean df.
Proof.
  intros Hrect. split_and!.
  - by apply rect_clean.
  - unfold clean. destruct (isnull_any df); [|done].
    unfold dropna. rewrite map_map. by apply map_ext.
  - rewrite nrows_clean by done. lia.
  - apply dropna_id; [by apply rect_clean|apply isnull_any_clean].
  - unfold clean at 1. by rewrite isnull_any_clean.
Qed.

(** The mask of a frame of two columns, row by row. *)
Lemma dropna_mask_two n1 n2 (cur vol : ndarray) :
  length cur = length vol →
  dropna_mask [(n1, cur); (n2, vol)]
  = map (λ p, negb (isnan p.1) && negb (isnan p.2)) (zip cur vol).
Proof.
  intros Hlen. unfold dropna_mask, row_complete. cbn [nrows forallb snd].
  rewrite (map_nth_zip (λ c v, negb (isnan c) && (negb (isnan v) && true)))
    by done.
  rewrite zip_with_zip. apply map_ext. intros [c v]. simpl.
  by rewrite andb_true_r.
Qed.

(** X11: on a frame of the two columns [Current_A] and [Voltage_V] of equal
    length, the cleaning step keeps exactly the rows in which neither value
    is NaN: the surviving (current, voltage) pairs are the filter of the
    loaded pairs by that condition, so no complete row is lost. *)
Theorem clean_keeps_exactly_complete_rows (cur vol : ndarray) :
  length cur = length vol →
  let raw := [("Current_A", cur); ("Voltage_V", vol)] in
  ∃ cur' vol',
    column (clean raw) "Current_A" = Some cur'
    ∧ column (clean raw) "Voltage_V" = Some vol'
    ∧ zip cur' vol'
      = filter (λ p, negb (isnan p.1) && negb (isnan p.2) = true) (zip cur vol).
Proof.
  intros Hlen raw.
  assert (rect raw = true) as Hrect.
  { unfold rect, raw. cbn [forallb nrows snd].
    by rewrite Hlen, !bool_decide_true by done. }
  assert (column (clean raw) = column (dropna raw)) as ->.
  { unfold clean. destruct (isnull_any raw) eqn:Hany; [done|].
    by rewrite dropna_id. }
  exists (keep (dropna_mask raw) cur), (keep (dropna_mask raw) vol).
  split_and!; [done|done|].
  rewrite <- keep_zip. unfold raw. rewrite dropna_mask_two by done.
  apply keep_map.
Qed.

(** ** The further properties on the reference instance *)

(** Files for the error paths: a line with a field too many, a header without
    [Current_A], a single row without its voltage, and a header alone. *)
Definition ragged_file : csv :=
  Csv ["Current_A"; "Voltage_V"]
      [[Some 1; Some 5]; [Some 2; Some 10; Some 7]]%float.
Definition renamed_file : csv :=
  Csv ["I"; "Voltage_V"] [[Some 1; Some 5]; [Some 2; Some 10]]%float.
Definition hollow_file : csv :=
  Csv ["Current_A"; "Voltage_V"] [[Some 1%float; None]].
Definition header_file : csv := Csv ["Current_A"; "Voltage_V"] [].
Definition w3 : world Demo.lib :=
  @World Demo.lib {[ "ragged.csv" := ragged_file;
                     "renamed.csv" := renamed_file;
                     "hollow.csv" := hollow_file;
                     "header.csv" := header_file ]} [] 0 [] [].

Lemma main_fresh_witness :
  files Demo.w0 !! "experiment_data.csv" = None
  ∧ write_error Demo.lib (files Demo.w0) "experiment_data.csv" = None
  ∧ (main Demo.lib Demo.w0).1 = Raise (NameError "resistance").
Proof.
  assert (files Demo.w0 !! "experiment_data.csv" = None) as Hfile
    by reflexivity.
  assert (write_error Demo.lib (files Demo.w0) "experiment_data.csv" = None)
    as Hwrite by reflexivity.
  split_and!; [exact Hfile|exact Hwrite|].
  destruct (main_fresh Demo.lib demo_draws_numbers Demo.w0 Hfile Hwrite)
    as (c & v & _ & _ & _ & _ & ->).
  reflexivity.
Defined.

Lemma create_dummy_data_footprint_witness :
  create_dummy_data Demo.lib "experiment_data.csv" Demo.w0
    = (Ok "experiment_data.csv", Demo.w1)
  ∧ (create_dummy_data Demo.lib "no_such_dir/x.csv" Demo.w0).1
    = Raise (OSError "Cannot save file into a non-existent directory")
  ∧ files (create_dummy_data Demo.lib "no_such_dir/x.csv" Demo.w0).2 = ∅
  ∧ stdout (create_dummy_data Demo.lib "no_such_dir/x.csv" Demo.w0).2 = [].
Proof.
  destruct (create_dummy_data_footprint Demo.lib Demo.w0 "experiment_data.csv")
    as (_ & _ & _ & Hok & _).
  destruct (Hok eq_refl) as (Hret & _ & _).
  destruct (create_dummy_data_footprint Demo.lib Demo.w0 "no_such_dir/x.csv")
    as (_ & _ & _ & _ & Hno).
  destruct (Hno _ eq_refl) as (Hraise & Hfiles & Hout).
  split_and!; [|exact Hraise|exact Hfiles|exact Hout].
  unfold Demo.w1.
  destruct (create_dummy_data Demo.lib "experiment_data.csv" Demo.w0)
    as [r w]. simpl in *. by rewrite Hret.
Defined.

Lemma main_keeps_existing_file_witness :
  files Demo.w1 !! "experiment_data.csv"
    = Some (csv_of_frame (dummy_frame Demo.lib))
  ∧ files (main Demo.lib Demo.w1).2 = files Demo.w1.
Proof.
  assert (files Demo.w1 !! "experiment_data.csv"
          = Some (csv_of_frame (dummy_frame Demo.lib))) as Hfile
    by (vm_compute; reflexivity).
  split; [exact Hfile|].
  exact (proj1 (proj2 (main_keeps_existing_file Demo.lib Demo.w1 _ Hfile))).
Defined.

Lemma analyzer_propagates_read_error_witness :
  regular ragged_file = false
  ∧ (process_and_analyze Demo.lib "ragged.csv" w3).1 = Raise ParserError.
Proof.
  split; [reflexivity|].
  rewrite (analyzer_propagates_read_error Demo.lib w3 "ragged.csv"
             ragged_file ParserError); reflexivity.
Defined.

Lemma analyzer_missing_column_witness :
  column (frame_of_csv renamed_file) "Current_A" = None
  ∧ (process_and_analyze Demo.lib "renamed.csv" w3).1
    = Raise (KeyError "Current_A").
Proof.
  split; [reflexivity|].
  rewrite (analyzer_missing_column Demo.lib w3 "renamed.csv" renamed_file
             (frame_of_csv renamed_file)); [reflexivity..|].
  left. reflexivity.
Defined.

Lemma analyzer_empty_after_cleaning_witness :
  nrows (frame_of_csv hollow_file) = 1
  ∧ nrows (clean (frame_of_csv hollow_file)) = 0
  ∧ (process_and_analyze Demo.lib "hollow.csv" w3).1
    = Raise (TypeError "expected non-empty vector for x").
Proof.
  split_and!; [reflexivity..|].
  rewrite (analyzer_empty_after_cleaning Demo.lib w3 "hollow.csv" hollow_file
             (frame_of_csv hollow_file) [1%float] [nan]);
    [reflexivity..| |reflexivity]. vm_compute. lia.
Defined.

Lemma analyzer_header_only_witness :
  parse_csv Demo.lib header_file = inr (frame_of_csv header_file)
  ∧ nrows (frame_of_csv header_file) = 0
  ∧ process_and_analyze Demo.lib "header.csv" w3
    = (Raise ZeroDivisionError,
       @World Demo.lib (files w3)
              [ "Loading data from header.csv...";
                "Raw data shape: (0, 2)";
                "Cleaned data shape: (0, 2)";
                newline +:+ "--- Statistical Analysis ---" ]
              0 [] [frame_of_csv header_file]).
Proof.
  split_and!; [vm_compute; reflexivity|reflexivity|].
  rewrite (analyzer_header_only Demo.lib w3 "header.csv" header_file
             (frame_of_csv header_file) [] []);
    [vm_compute; reflexivity|vm_compute; reflexivity..].
Defined.

Lemma analyzer_reports_shapes_witness :
  ∃ rest,
    stdout (process_and_analyze Demo.lib "gapped.csv" Demo.w2).2
    = [ "Loading data from gapped.csv...";
        "Raw data shape: (3, 2)";
        "Missing values detected. Dropping incomplete rows...";
        "Cleaned data shape: (2, 2)" ] ++ rest.
Proof.
  destruct (analyzer_reports_shapes Demo.lib Demo.w2 "gapped.csv"
              (csv_of_frame Demo.gapped) Demo.gapped)
    as [rest Hrest]; [vm_compute; reflexivity..|].
  exists rest. rewrite Hrest. reflexivity.
Defined.

Lemma clean_invariants_witness :
  rect Demo.gapped = true
  ∧ rect (clean Demo.gapped) = true
  ∧ clean (clean Demo.gapped) = clean Demo.gapped.
Proof.
  assert (rect Demo.gapped = true) as Hrect by reflexivity.
  destruct (clean_invariants Demo.gapped Hrect) as (H1 & _ & _ & _ & H2).
  split_and!; [exact Hrect|exact H1|exact H2].
Defined.

Lemma clean_keeps_exactly_complete_rows_witness :
  ∃ cur' vol',
    column (clean Demo.gapped) "Current_A" = Some cur'
    ∧ column (clean Demo.gapped) "Voltage_V" = Some vol'
    ∧ zip cur' vol' = [(1, 5); (3, 15)]%float.
Proof.
  destruct (clean_keeps_exactly_complete_rows [1; 2; 3]%float
              [5; nan; 15]%float eq_refl)
    as (c & v & Hc & Hv & Hzip).
  exists c, v. split_and!; [exact Hc|exact Hv|].
  rewrite Hzip. vm_compute. reflexivity.
Defined.
